(** * FluentClip: the clipboard history store of [fluentclip.py]

    A shallow embedding of the history logic of the [FluentClip] window
    class ([process_clipboard_text], [process_clipboard_image],
    [check_clipboard], [on_search_changed], [on_item_clicked],
    [on_settings], [load_history], [save_history]) and of
    [ClipboardItem.to_dict] / [ClipboardItem.from_dict], followed by the
    properties of the history store.

    The Python and GTK libraries the program calls are collected in the
    class [Library]; the program is written once over any instance of it.
    Widgets, theming and the tray icon are left out; the event handling of
    [HotKeyManager] has a module of its own. *)

From Stdlib Require Import ZArith Lia Bool Ascii String.
From Stdlib.Strings Require Import Byte.
From stdpp Require Import base option list gmap strings.

Local Open Scope string_scope.
Local Open Scope Z_scope.

(** ** The libraries the program calls *)

Class Library := {
  (** [datetime.datetime] *)
  datetime : Type;
  (** [datetime.isoformat()] *)
  isoformat : datetime -> string;
  (** [datetime.fromisoformat(s)]; [None] stands for [ValueError] *)
  fromisoformat : string -> option datetime;
  (** [datetime.strftime('%Y-%m-%d %H:%M:%S')] *)
  strftime : datetime -> string;
  (** [str.lower()] *)
  lower : string -> string;
  (** [str.strip()] *)
  strip : string -> string;
  (** [GdkPixbuf.Pixbuf] *)
  pixbuf : Type;
  (** [pixbuf.save_to_bufferv("png", [], [])]: the pair (success, data) *)
  save_to_bufferv : pixbuf -> bool * list byte;
  (** [base64.b64encode(data).decode('utf-8')] *)
  b64encode : list byte -> string;
  (** [base64.b64decode] followed by [GdkPixbuf.PixbufLoader]; [None]
      stands for any exception raised on the way *)
  load_pixbuf : string -> option pixbuf;
}.

(** ** Python helpers *)

(** Truth value of a [str]: the empty string is false. *)
Definition truthy (s : string) : bool := negb (String.eqb s "").

(** [needle in hay] for two [str]: substring test. *)
Fixpoint str_in (needle hay : string) : bool :=
  String.prefix needle hay ||
  match hay with
  | EmptyString => false
  | String _ hay' => str_in needle hay'
  end.

(** [l[:n]] with Python's reading of a negative bound. *)
Definition slice_to {A} (l : list A) (n : Z) : list A :=
  if 0 <=? n then take (Z.to_nat n) l
  else take (length l - Z.to_nat (- n))%nat l.

(** [s[:n]] on a [str], for [n >= 0]. *)
Definition str_slice_to (s : string) (n : nat) : string := String.substring 0 n s.

(** Python exceptions. *)
Inductive exn :=
| KeyError (key : string)
| TypeError
| ValueError
| JSONDecodeError
| OSError.

(** ** Persisted documents *)

(** What [json.load] returns, as far as [load_history] looks into it.  The
    members of an object are strings, as [to_dict] writes them; [JAtom]
    stands for [null], a boolean or a number. *)
#[local] Unset Elimination Schemes.
Inductive json :=
| JList (elems : list json)
| JDict (members : gmap string string)
| JStr (s : string)
| JAtom.
#[local] Set Elimination Schemes.

(** The file [history.json]: absent, present but [open]/[json.load] raises,
    or present and parsed. *)
Inductive file :=
| NoFile
| Unreadable (e : exn)
| Parsed (doc : json).

Section Program.
Context `{L : Library}.

(** ** ClipboardItem *)

Record ClipboardItem := {
  content : string;
  timestamp : datetime;
  type : string;
  image_data : option string;
}.

(** [ClipboardItem.to_dict] *)
Definition to_dict (self : ClipboardItem) : gmap string string :=
  let data : gmap string string :=
    <["content" := content self]>
      (<["timestamp" := isoformat (timestamp self)]>
        (<["type" := type self]> ∅)) in
  match image_data self with
  | Some d => if truthy d then <["image_data" := d]> data else data
  | None => data
  end.

(** [data[key]] on a parsed value: only an object can be subscripted by a
    string. *)
Definition getitem (data : json) (key : string) : exn + string :=
  match data with
  | JDict d => match d !! key with Some v => inr v | None => inl (KeyError key) end
  | _ => inl TypeError
  end.

(** [key in data], reached only after [getitem] succeeded on [data]. *)
Definition contains_key (data : json) (key : string) : bool :=
  match data with
  | JDict d => bool_decide (is_Some (d !! key))
  | _ => false
  end.

(** [ClipboardItem.from_dict] *)
Definition from_dict (data : json) : exn + ClipboardItem :=
  match getitem data "content" with
  | inl e => inl e
  | inr c =>
    match getitem data "timestamp" with
    | inl e => inl e
    | inr ts =>
      match fromisoformat ts with
      | None => inl ValueError
      | Some t =>
        match getitem data "type" with
        | inl e => inl e
        | inr ty =>
          let item := {| content := c; timestamp := t; type := ty; image_data := None |} in
          if contains_key data "image_data" then
            match getitem data "image_data" with
            | inl e => inl e
            | inr d => inr {| content := c; timestamp := t; type := ty; image_data := Some d |}
            end
          else inr item
        end
      end
    end
  end.

(** ** The window object *)

(** What the program prints, writes to the system clipboard and shows. *)
Inductive event :=
| PrintErrorLoadingHistory (e : exn)
| PrintErrorLoadingPreview
| PrintErrorSettingImage
| ClipboardSetText (text : string)
| ClipboardSetImage (p : pixbuf)
| Notification (summary body : string).

Record FluentClip := {
  max_history : Z;
  current_content : string;
  history : list ClipboardItem;
  is_visible : bool;
  (** the rows of [self.listbox], each with the item stored in [row.item] *)
  listbox : list ClipboardItem;
  (** the contents of [history.json] *)
  history_file : file;
  (** printed lines, clipboard writes and notifications, oldest first *)
  events : list event;
}.

Definition set_max_history (self : FluentClip) (n : Z) : FluentClip :=
  {| max_history := n; current_content := current_content self;
     history := history self; is_visible := is_visible self;
     listbox := listbox self; history_file := history_file self;
     events := events self |}.

Definition set_current_content (self : FluentClip) (s : string) : FluentClip :=
  {| max_history := max_history self; current_content := s;
     history := history self; is_visible := is_visible self;
     listbox := listbox self; history_file := history_file self;
     events := events self |}.

Definition set_history (self : FluentClip) (h : list ClipboardItem) : FluentClip :=
  {| max_history := max_history self; current_content := current_content self;
     history := h; is_visible := is_visible self;
     listbox := listbox self; history_file := history_file self;
     events := events self |}.

Definition set_is_visible (self : FluentClip) (b : bool) : FluentClip :=
  {| max_history := max_history self; current_content := current_content self;
     history := history self; is_visible := b;
     listbox := listbox self; history_file := history_file self;
     events := events self |}.

Definition set_listbox (self : FluentClip) (rows : list ClipboardItem) : FluentClip :=
  {| max_history := max_history self; current_content := current_content self;
     history := history self; is_visible := is_visible self;
     listbox := rows; history_file := history_file self;
     events := events self |}.

Definition set_history_file (self : FluentClip) (f : file) : FluentClip :=
  {| max_history := max_history self; current_content := current_content self;
     history := history self; is_visible := is_visible self;
     listbox := listbox self; history_file := f;
     events := events self |}.

Definition emit (self : FluentClip) (e : event) : FluentClip :=
  {| max_history := max_history self; current_content := current_content self;
     history := history self; is_visible := is_visible self;
     listbox := listbox self; history_file := history_file self;
     events := events self ++ [e] |}.

(** What [add_item_to_list] prints for an item: the error of the preview of
    an image whose payload is missing or cannot be loaded, and nothing for
    a text or for another kind.  The preview of a pixbuf the loader gives
    is taken to be made without an exception. *)
Definition preview_error (item : ClipboardItem) : list event :=
  if String.eqb (type item) "image" then
    match image_data item ≫= load_pixbuf with
    | Some _ => []
    | None => [PrintErrorLoadingPreview]
    end
  else [].

(** [add_item_to_list]: a row for the item at the end of the list box. *)
Definition add_item_to_list (self : FluentClip) (item : ClipboardItem)
    : FluentClip :=
  {| max_history := max_history self; current_content := current_content self;
     history := history self; is_visible := is_visible self;
     listbox := listbox self ++ [item]; history_file := history_file self;
     events := events self ++ preview_error item |}.

(** [add_item_to_list] called on each item of [items] in turn, as the
    [for] loops of [refresh_list] and [on_search_changed] do. *)
Definition add_items_to_list (self : FluentClip) (items : list ClipboardItem)
    : FluentClip :=
  {| max_history := max_history self; current_content := current_content self;
     history := history self; is_visible := is_visible self;
     listbox := listbox self ++ items; history_file := history_file self;
     events := events self ++ (items ≫= preview_error) |}.

(** [refresh_list]: the rows are removed and every item of the history is
    added again. *)
Definition refresh_list (self : FluentClip) : FluentClip :=
  add_items_to_list (set_listbox self []) (history self).

(** [save_history]: [json.dump] of the records of [self.history];
    [os.makedirs] and the write are taken to succeed, and [json.load] to
    give back the document that was written. *)
Definition save_history (self : FluentClip) : FluentClip :=
  set_history_file self (Parsed (JList (JDict ∘ to_dict <$> history self))).

(** The comprehension [[ClipboardItem.from_dict(item) for item in data]]:
    the first exception aborts it. *)
Fixpoint from_dicts (data : list json) : exn + list ClipboardItem :=
  match data with
  | [] => inr []
  | d :: rest =>
    match from_dict d with
    | inl e => inl e
    | inr item =>
      match from_dicts rest with
      | inl e => inl e
      | inr items => inr (item :: items)
      end
    end
  end.

(** What [os.makedirs(config_dir, exist_ok=True)] does: it returns, the
    directory being there or made, or it raises. *)
Inductive makedirs :=
| DirectoryThere
| DirectoryRefused (e : exn).

(** The lines of [load_history] after [os.makedirs]: the file is looked
    for and read inside the [try]. *)
Definition read_history (self : FluentClip) : FluentClip :=
  match history_file self with
  | NoFile => self
  | Unreadable e => emit self (PrintErrorLoadingHistory e)
  | Parsed (JList data) =>
    match from_dicts data with
    | inl e => emit self (PrintErrorLoadingHistory e)
    | inr items =>
      let self := refresh_list (set_history self items) in
      match history self with
      | item :: _ => set_current_content self (content item)
      | [] => self
      end
    end
  | Parsed _ => self
  end.

(** The fields [__init__] sets before it calls [load_history], with the
    file found on disk. *)
Definition new_window (f : file) : FluentClip :=
  {| max_history := 30; current_content := ""; history := [];
     is_visible := false; listbox := []; history_file := f; events := [] |}.

(** [load_history]: [os.makedirs] is called before the [try], so what it
    raises is not caught. *)
Definition load_history (self : FluentClip) (d : makedirs) : exn + FluentClip :=
  match d with
  | DirectoryRefused e => inl e
  | DirectoryThere => inr (read_history self)
  end.

(** [__init__], as far as the history is concerned, when [os.makedirs]
    returns. *)
Definition init (f : file) : FluentClip := read_history (new_window f).

(** [__init__], as far as the history is concerned: what [load_history]
    raises leaves it, and no window is made. *)
Definition construct (d : makedirs) (f : file) : exn + FluentClip :=
  load_history (new_window f) d.

(** The test of the loop of [process_clipboard_text]. *)
Definition text_match (text : string) (item : ClipboardItem) : Prop :=
  type item = "text" ∧ content item = text.

#[global] Instance text_match_dec text item : Decision (text_match text item).
Proof. unfold text_match. apply _. Defined.

(** The truncation after an insertion. *)
Definition limit (self : FluentClip) : FluentClip :=
  if Z.of_nat (length (history self)) >? max_history self
  then set_history self (slice_to (history self) (max_history self))
  else self.

(** [process_clipboard_text]; [now] is what [datetime.now()] returns. *)
Definition process_clipboard_text (self : FluentClip) (text : string)
    (now : datetime) : FluentClip :=
  let self := set_current_content self text in
  let new_item :=
    {| content := text; timestamp := now; type := "text"; image_data := None |} in
  match list_find (text_match text) (history self) with
  | Some (i, _) =>
    save_history (refresh_list (set_history self (new_item :: delete i (history self))))
  | None =>
    save_history (refresh_list (limit (set_history self (new_item :: history self))))
  end.

(** The test of the loop of [process_clipboard_image]. *)
Definition image_match (data : string) (item : ClipboardItem) : Prop :=
  type item = "image" ∧ image_data item = Some data.

#[global] Instance image_match_dec data item : Decision (image_match data item).
Proof. unfold image_match. apply _. Defined.

(** The item both branches of [process_clipboard_image] build. *)
Definition image_item (now : datetime) (data : string) : ClipboardItem :=
  {| content := "Image " +:+ strftime now; timestamp := now;
     type := "image"; image_data := Some data |}.

(** [process_clipboard_image] *)
Definition process_clipboard_image (self : FluentClip) (p : pixbuf)
    (now : datetime) : FluentClip :=
  let '(success, data) := save_to_bufferv p in
  if success then
    let data := b64encode data in
    match list_find (image_match data) (history self) with
    | Some (i, _) =>
      save_history (refresh_list
        (set_history self (image_item now data :: delete i (history self))))
    | None =>
      save_history (refresh_list
        (limit (set_history self (image_item now data :: history self))))
    end
  else self.

(** What [wait_for_text] and [wait_for_image] return at one tick of the
    timer. *)
Record clipboard := {
  wait_for_text : option string;
  wait_for_image : option pixbuf;
}.

(** [check_clipboard]: one tick of the polling timer. *)
Definition check_clipboard (self : FluentClip) (c : clipboard)
    (now : datetime) : FluentClip :=
  let image_branch :=
    match wait_for_image c with
    | Some p => process_clipboard_image self p now
    | None => self
    end in
  match wait_for_text c with
  | Some text =>
    if truthy text && negb (String.eqb text (current_content self))
       && truthy (strip text)
    then process_clipboard_text self text now
    else image_branch
  | None => image_branch
  end.

(** The test of the loop of [on_search_changed]. *)
Definition search_match (search_text : string) (item : ClipboardItem) : bool :=
  if String.eqb (type item) "text" && str_in search_text (lower (content item))
  then true
  else if String.eqb (type item) "image" && str_in search_text (lower (content item))
  then true
  else false.

(** [on_search_changed]; [text] is [entry.get_text()]. *)
Definition on_search_changed (self : FluentClip) (text : string) : FluentClip :=
  let search_text := lower text in
  add_items_to_list (set_listbox self [])
    (List.filter (search_match search_text) (history self)).

(** [on_item_clicked]; [row] is [None] when no row is passed. *)
Definition on_item_clicked (self : FluentClip) (row : option ClipboardItem)
    : FluentClip :=
  match row with
  | None => self
  | Some item =>
    let self :=
      if String.eqb (type item) "text" then
        emit self (ClipboardSetText (content item))
      else if String.eqb (type item) "image" then
        match image_data item ≫= load_pixbuf with
        | Some p => emit self (ClipboardSetImage p)
        | None => emit self PrintErrorSettingImage
        end
      else self in
    let body :=
      str_slice_to (content item) 50 +:+
      (if (50 <? String.length (content item))%nat then "..." else "") in
    let self := emit self (Notification "Copied to clipboard" body) in
    set_is_visible self false
  end.

(** The answer of a dialog. *)
Inductive response := OK | CANCEL | YES | NO.

(** [on_settings], as far as [max_history] is concerned; [value] is
    [int(spin_button.get_value())]. *)
Definition on_settings (self : FluentClip) (r : response) (value : Z)
    : FluentClip :=
  match r with
  | OK => set_max_history self value
  | _ => self
  end.

(** One call into the history store: the two workers and the timer tick. *)
Inductive call :=
| Text (text : string) (now : datetime)
| Image (p : pixbuf) (now : datetime)
| Poll (c : clipboard) (now : datetime).

Definition observe (self : FluentClip) (k : call) : FluentClip :=
  match k with
  | Text text now => process_clipboard_text self text now
  | Image p now => process_clipboard_image self p now
  | Poll c now => check_clipboard self c now
  end.

(** The states after each call of a sequence, in order. *)
Fixpoint states (self : FluentClip) (calls : list call) : list FluentClip :=
  match calls with
  | [] => []
  | k :: rest => let self := observe self k in self :: states self rest
  end.

(** The state after the last call of a sequence. *)
Definition run (self : FluentClip) (calls : list call) : FluentClip :=
  foldl observe self calls.

(** [on_clear_all] *)
Definition on_clear_all (self : FluentClip) (r : response) : FluentClip :=
  match r with
  | YES => save_history (refresh_list (set_history self []))
  | _ => self
  end.

(** [show_window] *)
Definition show_window (self : FluentClip) : FluentClip :=
  set_is_visible self true.

(** [hide_window] *)
Definition hide_window (self : FluentClip) : FluentClip :=
  set_is_visible self false.

(** [toggle_window] *)
Definition toggle_window (self : FluentClip) : FluentClip :=
  if is_visible self then hide_window self else show_window self.

(** [Gdk.KEY_Escape] *)
Definition KEY_Escape : Z := 65307.

(** [on_key_press], with the value it returns; [keyval] is
    [event.keyval]. *)
Definition on_key_press (self : FluentClip) (keyval : Z) : FluentClip * bool :=
  if keyval =? KEY_Escape then (hide_window self, true) else (self, false).

(** [on_focus_out], with the value it returns. *)
Definition on_focus_out (self : FluentClip) : FluentClip * bool :=
  (hide_window self, true).

(** The text [add_item_to_list] puts on the label of a text item. *)
Definition text_label (item : ClipboardItem) : string :=
  let content := content item in
  if (100 <? String.length content)%nat
  then str_slice_to content 97 +:+ "..."
  else content.

(** ** Vocabulary of the properties *)

(** [entries.length <= capacity] *)
Definition within_capacity self : Prop :=
  Z.of_nat (length (history self)) <= max_history self.

(** [old] is the first entry of [l] that passes the test [P], at index [i]:
    the entry the [for] loops of the two workers stop at. *)
Definition first_match (P : ClipboardItem -> Prop) (l : list ClipboardItem)
    (i : nat) (old : ClipboardItem) : Prop :=
  l !! i = Some old ∧ P old ∧
  ∀ j y, l !! j = Some y -> (j < i)%nat -> ¬ P y.

(** A tick of the timer at which the clipboard holds the text of
    [current_content] and no image. *)
Definition unchanged_text_poll self (k : call) : Prop :=
  match k with
  | Poll c _ => wait_for_text c = Some (current_content self) ∧ wait_for_image c = None
  | _ => False
  end.

(** A call that processes at most an image: the image worker, or a tick at
    which the clipboard holds no text. *)
Definition image_call (k : call) : Prop :=
  match k with
  | Text _ _ => False
  | Image _ _ => True
  | Poll c _ => wait_for_text c = None
  end.

(** [query] occurs in [s] when case is ignored, case being what [lower]
    removes. *)
Definition ci_substring (query s : string) : Prop :=
  ∃ pre post, lower s = pre +:+ lower query +:+ post.

(** What [to_dict] keeps of an item: everything, but an empty payload is
    written like an absent one. *)
Definition saved_form item : ClipboardItem :=
  {| content := content item; timestamp := timestamp item; type := type item;
     image_data :=
       match image_data item with
       | Some d => if truthy d then Some d else None
       | None => None
       end |}.

(** What the two workers compare entries by: the content of a text, the
    payload of an image that has one; entries of another kind, and images
    without a payload, are compared by nothing. *)
Definition entry_key (item : ClipboardItem) : option (string * string) :=
  if decide (type item = "text") then Some ("text", content item)
  else if decide (type item = "image") then
    match image_data item with
    | Some d => Some ("image", d)
    | None => None
    end
  else None.

(** No two entries of [l] are a text with the same content or an image
    with the same payload. *)
Definition distinct (l : list ClipboardItem) : Prop :=
  NoDup (omap entry_key l).

(** The list box shows the whole history and the file holds its records. *)
Definition synced (self : FluentClip) : Prop :=
  listbox self = history self ∧
  history_file self = Parsed (JList (JDict ∘ to_dict <$> history self)).

(** The characters of the payload of an entry; none when it has no
    payload. *)
Definition payload (item : ClipboardItem) : string :=
  default "" (image_data item).

(** The body of the notification of [on_item_clicked]. *)
Definition notification_body (content : string) : string :=
  str_slice_to content 50 +:+
  (if (50 <? String.length content)%nat then "..." else "").

End Program.

(** ** HotKeyManager *)

Module HotKey.

(** [XK.XK_Super_L], [XK.XK_Super_R] and [XK.XK_v] *)
Definition XK_Super_L : Z := 65515.
Definition XK_Super_R : Z := 65516.
Definition XK_v : Z := 118.

(** An event of the recorded stream: its type, and for a key event the
    keysym [keycode_to_keysym(event.detail, 0)] gives. *)
Inductive xevent :=
| KeyPress (keysym : Z)
| KeyRelease (keysym : Z)
| OtherEvent.

Record HotKeyManager := {
  running : bool;
  super_pressed : bool;
}.

(** [__init__] *)
Definition new_manager : HotKeyManager :=
  {| running := false; super_pressed := false |}.

(** [keysym in (XK.XK_Super_L, XK.XK_Super_R)] *)
Definition is_super (keysym : Z) : bool :=
  (keysym =? XK_Super_L) || (keysym =? XK_Super_R).

(** One turn of the [while] loop of [_process_event]: the manager after
    the event, and whether the callback was handed to [GLib.idle_add]. *)
Definition handle (self : HotKeyManager) (e : xevent) : HotKeyManager * bool :=
  match e with
  | KeyPress keysym =>
    if is_super keysym then
      ({| running := running self; super_pressed := true |}, false)
    else if super_pressed self && (keysym =? XK_v) then (self, true)
    else (self, false)
  | KeyRelease keysym =>
    if is_super keysym then
      ({| running := running self; super_pressed := false |}, false)
    else (self, false)
  | OtherEvent => (self, false)
  end.

(** The [while] loop of [_process_event] over the events of [reply.data];
    the number counts the callbacks handed to [GLib.idle_add]. *)
Fixpoint handle_all (self : HotKeyManager) (data : list xevent)
    : HotKeyManager * nat :=
  match data with
  | [] => (self, O)
  | e :: rest =>
    let '(self, fired) := handle self e in
    let '(self, n) := handle_all self rest in
    (self, ((if fired then 1 else 0) + n)%nat)
  end.

(** A press of a Super key. *)
Definition is_super_press (e : xevent) : bool :=
  match e with
  | KeyPress keysym => is_super keysym
  | _ => false
  end.

(** A press or a release of a Super key. *)
Definition is_super_event (e : xevent) : bool :=
  match e with
  | KeyPress keysym | KeyRelease keysym => is_super keysym
  | OtherEvent => false
  end.

(** A press of the key v. *)
Definition is_v_press (e : xevent) : bool :=
  match e with
  | KeyPress keysym => keysym =? XK_v
  | _ => false
  end.

(** [_process_event] *)
Definition _process_event (self : HotKeyManager) (data : list xevent)
    : HotKeyManager * nat :=
  if negb (running self) then (self, O) else handle_all self data.

(** [stop] *)
Definition stop (self : HotKeyManager) : HotKeyManager :=
  {| running := false; super_pressed := super_pressed self |}.

(** The replies of the recorded stream handled one after the other, with
    the callbacks counted over all of them. *)
Fixpoint replies (self : HotKeyManager) (rs : list (list xevent))
    : HotKeyManager * nat :=
  match rs with
  | [] => (self, O)
  | data :: rest =>
    let '(self, n) := _process_event self data in
    let '(self, m) := replies self rest in
    (self, (n + m)%nat)
  end.

End HotKey.

(** ** A concrete library

    An executable instance of [Library]: naive datetimes with the layouts
    [isoformat] writes for them, strings read as sequences of code points
    below 256, standard base64, and a pixbuf represented by the outcome of
    encoding it as PNG. *)

Module Py.

Local Open Scope N_scope.

Record naive_datetime := {
  year : N; month : N; day : N;
  hour : N; minute : N; second : N; microsecond : N;
}.

(** The decimal digit of [n mod 10]. *)
Definition digit (n : N) : ascii := ascii_of_N (48 + n mod 10).

(** [n] written with [w] digits, as ['%0wd' % n] does for [n < 10**w]. *)
Fixpoint zfill (w : nat) (n : N) : string :=
  match w with
  | O => ""
  | S w' => zfill w' (n / 10) +:+ String (digit n) ""
  end.

Definition date_part (t : naive_datetime) : string :=
  zfill 4 (year t) +:+ "-" +:+ zfill 2 (month t) +:+ "-" +:+ zfill 2 (day t).

Definition time_part (t : naive_datetime) : string :=
  zfill 2 (hour t) +:+ ":" +:+ zfill 2 (minute t) +:+ ":" +:+ zfill 2 (second t).

Definition isoformat (t : naive_datetime) : string :=
  date_part t +:+ "T" +:+ time_part t +:+
  (if microsecond t =? 0 then "" else "." +:+ zfill 6 (microsecond t)).

Definition strftime (t : naive_datetime) : string :=
  date_part t +:+ " " +:+ time_part t.

Definition digit_val (c : ascii) : option N :=
  let n := N_of_ascii c in
  if (48 <=? n) && (n <=? 57) then Some (n - 48) else None.

(** Reads [w] decimal digits off the front of [s], continuing the number
    [acc]; gives the number and the rest of [s]. *)
Fixpoint take_digits_from (acc : N) (w : nat) (s : string) : option (N * string) :=
  match w with
  | O => Some (acc, s)
  | S w' =>
    match s with
    | EmptyString => None
    | String c s' =>
      match digit_val c with
      | Some d => take_digits_from (10 * acc + d) w' s'
      | None => None
      end
    end
  end.

Definition take_digits : nat -> string -> option (N * string) :=
  take_digits_from 0.

(** Reads the character [c] off the front of [s]. *)
Definition expect (c : ascii) (s : string) : option string :=
  match s with
  | EmptyString => None
  | String c' s' => if Ascii.eqb c c' then Some s' else None
  end.

Definition is_leap (y : N) : bool :=
  (y mod 4 =? 0) && (negb (y mod 100 =? 0) || (y mod 400 =? 0)).

Definition days_in_month (y m : N) : N :=
  if m =? 2 then (if is_leap y then 29 else 28)
  else if (m =? 4) || (m =? 6) || (m =? 9) || (m =? 11) then 30
  else 31.

(** The values a [datetime] can hold. *)
Definition valid (t : naive_datetime) : bool :=
  (1 <=? year t) && (year t <=? 9999) &&
  (1 <=? month t) && (month t <=? 12) &&
  (1 <=? day t) && (day t <=? days_in_month (year t) (month t)) &&
  (hour t <? 24) && (minute t <? 60) && (second t <? 60) &&
  (microsecond t <? 1000000).

(** The fraction of a second at the end of the text: none, or a dot and
    six digits. *)
Definition fraction (s : string) : option N :=
  match s with
  | EmptyString => Some 0
  | String c s' =>
    if Ascii.eqb c "." then
      '(us, rest) ← take_digits 6 s';
      if String.eqb rest "" then Some us else None
    else None
  end.

(** [fromisoformat] on the two layouts [isoformat] writes:
    [YYYY-MM-DDTHH:MM:SS] and [YYYY-MM-DDTHH:MM:SS.ffffff]. *)
Definition fromisoformat (s : string) : option naive_datetime :=
  '(y, s) ← take_digits 4 s; s ← expect "-" s;
  '(mo, s) ← take_digits 2 s; s ← expect "-" s;
  '(d, s) ← take_digits 2 s; s ← expect "T" s;
  '(h, s) ← take_digits 2 s; s ← expect ":" s;
  '(mi, s) ← take_digits 2 s; s ← expect ":" s;
  '(se, s) ← take_digits 2 s;
  us ← fraction s;
  let t := {| year := y; month := mo; day := d; hour := h; minute := mi;
              second := se; microsecond := us |} in
  if valid t then Some t else None.

(** [str.lower()] on code points below 256. *)
Definition lower_char (c : ascii) : ascii :=
  let n := N_of_ascii c in
  if ((65 <=? n) && (n <=? 90)) || ((192 <=? n) && (n <=? 222) && negb (n =? 215))
  then ascii_of_N (n + 32) else c.

Fixpoint lower (s : string) : string :=
  match s with
  | EmptyString => EmptyString
  | String c s' => String (lower_char c) (lower s')
  end.

(** [str.isspace()] on one code point below 256. *)
Definition is_space (c : ascii) : bool :=
  let n := N_of_ascii c in
  ((9 <=? n) && (n <=? 13)) || ((28 <=? n) && (n <=? 32)) || (n =? 133) || (n =? 160).

Fixpoint lstrip (s : string) : string :=
  match s with
  | EmptyString => EmptyString
  | String c s' => if is_space c then lstrip s' else s
  end.

Fixpoint rstrip (s : string) : string :=
  match s with
  | EmptyString => EmptyString
  | String c s' =>
    match rstrip s' with
    | EmptyString => if is_space c then EmptyString else String c EmptyString
    | r => String c r
    end
  end.

Definition strip (s : string) : string := rstrip (lstrip s).

(** A pixbuf, by what [save_to_bufferv("png", ...)] returns on it. *)
Record png_pixbuf := { png_success : bool; png_data : list byte }.

Definition save_to_bufferv (p : png_pixbuf) : bool * list byte :=
  (png_success p, png_data p).

Definition b64_alphabet : string :=
  "ABCDEFGHIJKLMNOPQRSTUVWXYZabcdefghijklmnopqrstuvwxyz0123456789+/".

Definition b64_char (n : N) : ascii :=
  match String.get (N.to_nat (n mod 64)) b64_alphabet with
  | Some c => c
  | None => "="%char
  end.

(** [base64.b64encode] *)
Fixpoint b64encode (data : list byte) : string :=
  match data with
  | [] => ""
  | [a] =>
    let n := Byte.to_N a * 65536 in
    String (b64_char (n / 262144)) (String (b64_char (n / 4096)) "==")
  | [a; b] =>
    let n := Byte.to_N a * 65536 + Byte.to_N b * 256 in
    String (b64_char (n / 262144)) (String (b64_char (n / 4096))
      (String (b64_char (n / 64)) "="))
  | a :: b :: c :: rest =>
    let n := Byte.to_N a * 65536 + Byte.to_N b * 256 + Byte.to_N c in
    String (b64_char (n / 262144)) (String (b64_char (n / 4096))
      (String (b64_char (n / 64)) (String (b64_char n) (b64encode rest))))
  end.

Fixpoint b64_index_from (i : N) (alphabet : string) (c : ascii) : option N :=
  match alphabet with
  | EmptyString => None
  | String a rest => if Ascii.eqb a c then Some i else b64_index_from (i + 1) rest c
  end.

Definition b64_index : ascii -> option N := b64_index_from 0 b64_alphabet.

Definition byte_of (n : N) : byte :=
  match Byte.of_N (n mod 256) with Some b => b | None => x00 end.

(** [base64.b64decode] on padded input; [None] stands for
    [binascii.Error]. *)
Fixpoint b64decode (s : string) : option (list byte) :=
  match s with
  | EmptyString => Some []
  | String c1 (String c2 (String c3 (String c4 rest))) =>
    i1 ← b64_index c1; i2 ← b64_index c2;
    if Ascii.eqb c3 "=" then
      if Ascii.eqb c4 "=" && String.eqb rest "" then
        Some [byte_of ((i1 * 64 + i2) / 16)]
      else None
    else
      i3 ← b64_index c3;
      if Ascii.eqb c4 "=" then
        if String.eqb rest "" then
          let n := (i1 * 64 + i2) * 64 + i3 in
          Some [byte_of (n / 1024); byte_of (n / 4)]
        else None
      else
        i4 ← b64_index c4;
        tail ← b64decode rest;
        let n := ((i1 * 64 + i2) * 64 + i3) * 64 + i4 in
        Some (byte_of (n / 65536) :: byte_of (n / 256) :: byte_of n :: tail)
  | _ => None
  end.

#[global] Instance byte_eq_dec : EqDecision byte := Byte.byte_eq_dec.

(** The eight bytes every PNG stream starts with. *)
Definition png_signature : list byte := [x89; x50; x4e; x47; x0d; x0a; x1a; x0a].

(** [b64decode] followed by the pixbuf loader, which is taken to accept
    the streams that start with the PNG signature. *)
Definition load_pixbuf (s : string) : option png_pixbuf :=
  data ← b64decode s;
  if bool_decide (take 8 data = png_signature)
  then Some {| png_success := true; png_data := data |}
  else None.

#[global] Instance library : Library :=
  Build_Library naive_datetime isoformat fromisoformat strftime lower strip
    png_pixbuf save_to_bufferv b64encode load_pixbuf.

End Py.

(** ** Sample data over the concrete library *)

Module Example.
Import Py.

Definition morning : naive_datetime :=
  {| year := 2024; month := 3; day := 9; hour := 7; minute := 5; second := 0;
     microsecond := 0 |}.

Definition noon : naive_datetime :=
  {| year := 2024; month := 3; day := 9; hour := 12; minute := 0; second := 30;
     microsecond := 1234 |}.

Definition evening : naive_datetime :=
  {| year := 2024; month := 3; day := 9; hour := 19; minute := 30; second := 15;
     microsecond := 250000 |}.

(** The start of a PNG stream, and a pixbuf that encodes to it. *)
Definition png : list byte := png_signature ++ [x00; x00; x00; x0d].

Definition shot : png_pixbuf := {| png_success := true; png_data := png |}.

(** A window started without a file. *)
Definition fresh : FluentClip := init NoFile.

(** Four texts copied one after the other into a window of capacity 3. *)
Definition four_texts : list call :=
  [Text "A" morning; Text "B" morning; Text "C" noon; Text "D" evening].

Definition small : FluentClip := set_max_history fresh 3.

(** A window that stored one image in the morning. *)
Definition gallery : FluentClip := process_clipboard_image fresh shot morning.

(** A window that stored six texts. *)
Definition six : FluentClip :=
  run fresh
    [Text "a" morning; Text "b" morning; Text "c" morning;
     Text "d" noon; Text "e" noon; Text "f" noon].

(** A clipboard that holds a text and no image. *)
Definition holding (text : string) : clipboard :=
  {| wait_for_text := Some text; wait_for_image := None |}.

(** A clipboard that holds an image and no text. *)
Definition showing (p : png_pixbuf) : clipboard :=
  {| wait_for_text := None; wait_for_image := Some p |}.

(** A window that stored a text and then an image. *)
Definition text_then_image : FluentClip :=
  run fresh [Poll (holding "hello") morning; Poll (showing shot) noon].

(** A record as [to_dict] writes it for a text. *)
Definition record (text : string) : json :=
  JDict (<["content" := text]>
          (<["timestamp" := "2024-03-09T07:05:00"]>
            (<["type" := "text"]> ∅))).

(** A file of 31 records with the same content. *)
Definition crowded : list json := replicate 31 (record "same").

(** A window that saw the text hello at its first tick. *)
Definition greeted : FluentClip := run fresh [Poll (holding "hello") morning].

(** A clipboard that offers the text hello and an image of it. *)
Definition both : clipboard :=
  {| wait_for_text := Some "hello"; wait_for_image := Some shot |}.



(** A record of an image whose payload is the empty string. *)
Definition hollow : json :=
  JDict (<["content" := "Image 2024-03-09 07:05:00"]>
          (<["timestamp" := "2024-03-09T07:05:00"]>
            (<["type" := "image"]> (<["image_data" := ""]> ∅)))).

(** A window started on a file with that record. *)
Definition hollow_window : FluentClip := init (Parsed (JList [hollow])).

(** A file whose document is an object and not a list. *)
Definition object_file : file := Parsed (JDict ∅).

(** A file whose second record has no timestamp. *)
Definition broken : list json :=
  [record "first"; JDict (<["content" := "second"]> (<["type" := "text"]> ∅))].

(** A window of capacity 3 that stored three texts. *)
Definition three : FluentClip :=
  run small [Text "A" morning; Text "B" morning; Text "C" noon].

(** The entry of the text c as the window of six texts holds it. *)
Definition entry_c : ClipboardItem :=
  {| content := "c"; timestamp := morning; type := "text"; image_data := None |}.

(** The item the record of the text first is read as. *)
Definition entry_first : ClipboardItem :=
  {| content := "first"; timestamp := morning; type := "text";
     image_data := None |}.

(** A manager that listens, with no Super key down. *)
Definition listening : HotKey.HotKeyManager :=
  {| HotKey.running := true; HotKey.super_pressed := false |}.

(** Keys typed without a Super key: v, a, and a release of Super. *)
Definition typing : list HotKey.xevent :=
  [HotKey.KeyPress HotKey.XK_v; HotKey.KeyPress 97; HotKey.OtherEvent;
   HotKey.KeyRelease HotKey.XK_Super_L; HotKey.KeyPress HotKey.XK_v].

(** The key v pressed twice and released, with something else between. *)
Definition repeated_v : list HotKey.xevent :=
  [HotKey.KeyPress HotKey.XK_v; HotKey.OtherEvent;
   HotKey.KeyPress HotKey.XK_v; HotKey.KeyRelease HotKey.XK_v].

End Example.

(** * Properties *)

Section Properties.
Context `{L : Library}.

Implicit Types (self : FluentClip) (item : ClipboardItem).

(** ** The rows of the list box *)

Lemma add_items_to_list_loop self items :
  add_items_to_list self items = foldl add_item_to_list self items.
Proof.
  revert self. induction items as [|item items IH]; intros self; simpl.
  - destruct self. unfold add_items_to_list. simpl. by rewrite !app_nil_r.
  - rewrite <- IH. unfold add_items_to_list, add_item_to_list. simpl.
    f_equal; by rewrite <- app_assoc.
Qed.

Lemma refresh_list_loop self :
  refresh_list self = foldl add_item_to_list (set_listbox self []) (history self).
Proof. apply add_items_to_list_loop. Qed.

(** ** Slices and the truncation *)

Lemma slice_to_nonneg {A} (l : list A) n :
  0 <= n -> slice_to l n = take (Z.to_nat n) l.
Proof. intros Hn. unfold slice_to. destruct (Z.leb_spec 0 n); [done | lia]. Qed.

Lemma length_slice_to {A} (l : list A) n :
  0 <= n -> Z.of_nat (length (slice_to l n)) <= n.
Proof. intros Hn. rewrite slice_to_nonneg, length_take by done. lia. Qed.

Lemma limit_max_history self : max_history (limit self) = max_history self.
Proof. unfold limit. by destruct (_ >? _). Qed.

Lemma limit_current_content self :
  current_content (limit self) = current_content self.
Proof. unfold limit. by destruct (_ >? _). Qed.

Lemma limit_history self :
  0 <= max_history self ->
  history (limit self) = take (Z.to_nat (max_history self)) (history self).
Proof.
  intros Hn. unfold limit.
  destruct (Z.gtb_spec (Z.of_nat (length (history self))) (max_history self)); simpl.
  - by rewrite slice_to_nonneg.
  - rewrite take_ge; [done | lia].
Qed.

Lemma limit_within_capacity self :
  0 <= max_history self -> within_capacity (limit self).
Proof.
  intros Hn. unfold within_capacity.
  rewrite limit_max_history, limit_history, length_take by done. lia.
Qed.

(** ** The two workers *)

Lemma process_clipboard_text_max_history self text now :
  max_history (process_clipboard_text self text now) = max_history self.
Proof.
  unfold process_clipboard_text. simpl.
  destruct (list_find _ _) as [[i ?]|]; simpl; [done |].
  by rewrite limit_max_history.
Qed.

Lemma process_clipboard_image_max_history self p now :
  max_history (process_clipboard_image self p now) = max_history self.
Proof.
  unfold process_clipboard_image.
  destruct (save_to_bufferv p) as [[] data]; [| done].
  destruct (list_find _ _) as [[i ?]|]; simpl; [done |].
  by rewrite limit_max_history.
Qed.

Lemma check_clipboard_max_history self c now :
  max_history (check_clipboard self c now) = max_history self.
Proof.
  unfold check_clipboard.
  repeat case_match;
    auto using process_clipboard_text_max_history,
      process_clipboard_image_max_history.
Qed.

Lemma observe_max_history self k :
  max_history (observe self k) = max_history self.
Proof.
  destruct k; simpl;
    auto using process_clipboard_text_max_history,
      process_clipboard_image_max_history, check_clipboard_max_history.
Qed.

(** Moving a found entry to the front keeps the length. *)
Lemma length_move_to_front {A} (l : list A) i x y :
  l !! i = Some x -> length (y :: delete i l) = length l.
Proof.
  intros Hi. simpl. rewrite length_delete by eauto.
  apply lookup_lt_Some in Hi. lia.
Qed.

Lemma process_clipboard_text_within_capacity self text now :
  within_capacity self -> within_capacity (process_clipboard_text self text now).
Proof.
  intros Hcap. unfold process_clipboard_text. simpl.
  destruct (list_find _ _) as [[i x]|] eqn:Hfind; simpl.
  - apply list_find_Some in Hfind as (Hi & _ & _).
    unfold within_capacity in *; simpl.
    pose proof (length_move_to_front (history self) i x x Hi) as Hlen.
    simpl in Hlen. lia.
  - unfold within_capacity in *. simpl.
    apply (limit_within_capacity (set_history (set_current_content self text) _)).
    simpl. lia.
Qed.

Lemma process_clipboard_image_within_capacity self p now :
  within_capacity self -> within_capacity (process_clipboard_image self p now).
Proof.
  intros Hcap. unfold process_clipboard_image.
  destruct (save_to_bufferv p) as [[] data]; [| done].
  destruct (list_find _ _) as [[i x]|] eqn:Hfind; simpl.
  - apply list_find_Some in Hfind as (Hi & _ & _).
    unfold within_capacity in *; simpl.
    pose proof (length_move_to_front (history self) i x x Hi) as Hlen.
    simpl in Hlen. lia.
  - unfold within_capacity in *. simpl.
    apply (limit_within_capacity (set_history self _)).
    simpl. lia.
Qed.

Lemma check_clipboard_within_capacity self c now :
  within_capacity self -> within_capacity (check_clipboard self c now).
Proof.
  intros Hcap. unfold check_clipboard.
  repeat case_match;
    auto using process_clipboard_text_within_capacity,
      process_clipboard_image_within_capacity.
Qed.

Lemma observe_within_capacity self k :
  within_capacity self -> within_capacity (observe self k).
Proof.
  destruct k; simpl;
    auto using process_clipboard_text_within_capacity,
      process_clipboard_image_within_capacity, check_clipboard_within_capacity.
Qed.

(** C1. Starting from a history no longer than [max_history], after each
    call of any sequence of [process_clipboard_text],
    [process_clipboard_image] and [check_clipboard] calls the history is
    still no longer than [max_history], which the calls leave as it was. *)
Theorem history_bounded_after_each_call self calls :
  within_capacity self ->
  Forall (λ self', within_capacity self' ∧ max_history self' = max_history self)
    (states self calls).
Proof.
  revert self. induction calls as [|k calls IH]; intros self Hcap; simpl.
  - constructor.
  - constructor.
    + split; [by apply observe_within_capacity | apply observe_max_history].
    + eapply Forall_impl; [apply IH; by apply observe_within_capacity |].
      simpl. intros self' [? ->]. split; [done | apply observe_max_history].
Qed.

(** ** Duplicates *)

Lemma first_match_exists (P : ClipboardItem -> Prop) `{!∀ x, Decision (P x)}
    (l : list ClipboardItem) :
  (∃ item, item ∈ l ∧ P item) ->
  ∃ i old, list_find P l = Some (i, old) ∧ first_match P l i old.
Proof.
  intros (item & Hin & HP).
  destruct (list_find_elem_of P l item Hin HP) as [[i old] Hfind].
  exists i, old. split; [done |]. by apply list_find_Some in Hfind.
Qed.

Lemma check_clipboard_text self c text now :
  wait_for_text c = Some text ->
  text ≠ current_content self ->
  truthy text = true -> truthy (strip text) = true ->
  check_clipboard self c now = process_clipboard_text self text now.
Proof.
  intros Hc Hne Ht Hs. unfold check_clipboard. rewrite Hc, Ht, Hs.
  by apply String.eqb_neq in Hne as ->.
Qed.

Lemma check_clipboard_image self c p now :
  wait_for_text c = None -> wait_for_image c = Some p ->
  check_clipboard self c now = process_clipboard_image self p now.
Proof. intros Hc Hp. unfold check_clipboard. by rewrite Hc, Hp. Qed.

(** C2, amended.  When the text handed to [process_clipboard_text] is the
    content of a text entry, the first such entry is removed and a text
    entry with the same content and the time of the call is put at index
    0; when the PNG data of the pixbuf handed to [process_clipboard_image]
    is the payload of an image entry, the first such entry is removed and
    an image entry with the same payload, the time of the call and the
    label ["Image "] followed by that time is put at index 0.  The length
    of the history is unchanged in both cases.  [check_clipboard] hands
    over a text that is not blank and differs from [current_content], and
    an image when the clipboard holds no text. *)
Theorem duplicate_moves_to_front self now :
  (∀ text,
     (∃ item, item ∈ history self ∧ text_match text item) ->
     ∃ i old,
       first_match (text_match text) (history self) i old ∧
       history (process_clipboard_text self text now) =
         {| content := content old; timestamp := now; type := "text";
            image_data := None |} :: delete i (history self) ∧
       length (history (process_clipboard_text self text now)) =
         length (history self)) ∧
  (∀ p data,
     save_to_bufferv p = (true, data) ->
     (∃ item, item ∈ history self ∧ image_match (b64encode data) item) ->
     ∃ i old,
       first_match (image_match (b64encode data)) (history self) i old ∧
       history (process_clipboard_image self p now) =
         {| content := "Image " +:+ strftime now; timestamp := now;
            type := "image"; image_data := image_data old |}
           :: delete i (history self) ∧
       length (history (process_clipboard_image self p now)) =
         length (history self)) ∧
  (∀ c text,
     wait_for_text c = Some text -> text ≠ current_content self ->
     truthy text = true -> truthy (strip text) = true ->
     check_clipboard self c now = process_clipboard_text self text now) ∧
  (∀ c p,
     wait_for_text c = None -> wait_for_image c = Some p ->
     check_clipboard self c now = process_clipboard_image self p now).
Proof.
  split_and!.
  - intros text Hex.
    destruct (first_match_exists (text_match text) (history self) Hex)
      as (i & old & Hfind & Hfirst).
    exists i, old. unfold process_clipboard_text. simpl. rewrite Hfind. simpl.
    pose proof Hfirst as (Hi & [_ Hc] & _).
    split_and!; [done | by rewrite Hc |].
    by apply (length_move_to_front _ i old old).
  - intros p data Hsave Hex.
    destruct (first_match_exists (image_match (b64encode data)) (history self) Hex)
      as (i & old & Hfind & Hfirst).
    exists i, old. unfold process_clipboard_image. rewrite Hsave, Hfind. simpl.
    pose proof Hfirst as (Hi & [_ Hd] & _).
    split_and!; [done | unfold image_item; by rewrite Hd |].
    by apply (length_move_to_front _ i old old).
  - intros c text. apply check_clipboard_text.
  - intros c p. apply check_clipboard_image.
Qed.

(** ** The unchanged clipboard *)

Lemma check_clipboard_same_text self c now :
  wait_for_text c = Some (current_content self) ->
  check_clipboard self c now =
    match wait_for_image c with
    | Some p => process_clipboard_image self p now
    | None => self
    end.
Proof.
  intros Hc. unfold check_clipboard. rewrite Hc, String.eqb_refl.
  by rewrite andb_false_r.
Qed.

(** C6, amended.  A tick at which the clipboard holds the text of
    [current_content] does not process that text: when the clipboard offers
    no image the state, and so the history and its order, is left as it
    was, and when it offers an image too the tick is the call of
    [process_clipboard_image] on that image.  So polling a clipboard that
    holds the text of [current_content] and no image, any number of times,
    leaves the whole state as it was after each tick. *)
Theorem unchanged_text_is_ignored self :
  (∀ c now,
     wait_for_text c = Some (current_content self) ->
     check_clipboard self c now =
       match wait_for_image c with
       | Some p => process_clipboard_image self p now
       | None => self
       end) ∧
  (∀ c now,
     wait_for_text c = Some (current_content self) ->
     wait_for_image c = None ->
     check_clipboard self c now = self) ∧
  (∀ calls,
     Forall (unchanged_text_poll self) calls ->
     Forall (λ self', self' = self) (states self calls)).
Proof.
  split_and!.
  - intros c now. apply check_clipboard_same_text.
  - intros c now Hc Hp. by rewrite check_clipboard_same_text, Hp.
  - induction 1 as [|k calls Hk _ IH]; simpl; [constructor |].
    destruct k as [| |c now]; simpl in Hk; try done.
    destruct Hk as [Hc Hp]. simpl.
    rewrite check_clipboard_same_text, Hp by done.
    by constructor.
Qed.

(** ** Images and [current_content] *)

Lemma process_clipboard_image_current_content self p now :
  current_content (process_clipboard_image self p now) = current_content self.
Proof.
  unfold process_clipboard_image.
  destruct (save_to_bufferv p) as [[] data]; [| done].
  destruct (list_find _ _) as [[i ?]|]; simpl; [done |].
  by rewrite limit_current_content.
Qed.

Lemma process_clipboard_text_current_content self text now :
  current_content (process_clipboard_text self text now) = text.
Proof.
  unfold process_clipboard_text. simpl.
  destruct (list_find _ _) as [[i ?]|]; simpl; [done |].
  by rewrite limit_current_content.
Qed.

Lemma image_call_current_content self k :
  image_call k -> current_content (observe self k) = current_content self.
Proof.
  destruct k as [| |c now]; simpl; [done | |].
  - intros _. apply process_clipboard_image_current_content.
  - intros Hc. unfold check_clipboard. rewrite Hc.
    destruct (wait_for_image c); [| done].
    apply process_clipboard_image_current_content.
Qed.

Lemma image_calls_current_content self calls :
  Forall image_call calls ->
  current_content (run self calls) = current_content self.
Proof.
  intros Hcalls. revert self.
  induction Hcalls as [|k calls Hk _ IH]; intros self; [done |].
  unfold run in *. simpl. by rewrite IH, image_call_current_content.
Qed.

Lemma process_clipboard_image_head self p data now :
  save_to_bufferv p = (true, data) -> 1 <= max_history self ->
  ∃ item rest,
    history (process_clipboard_image self p now) = item :: rest ∧
    type item = "image".
Proof.
  intros Hsave Hcap. unfold process_clipboard_image. rewrite Hsave.
  destruct (list_find _ _) as [[i ?]|]; simpl; [by eauto |].
  rewrite limit_history by (simpl; lia). simpl.
  destruct (Z.to_nat (max_history self)) eqn:Hn; [lia |].
  simpl. by eauto.
Qed.

(** C10. [process_clipboard_image] leaves [current_content] as it is and
    [process_clipboard_text] sets it to its text.  So after a text was
    processed and then any number of images were, a tick at which the
    clipboard holds that text again (and no image) changes nothing, although
    after an image was stored (with [max_history >= 1]) index 0 holds an
    image entry and not that text. *)
Theorem image_keeps_current_content self :
  (∀ p now,
     current_content (process_clipboard_image self p now) = current_content self) ∧
  (∀ text now,
     current_content (process_clipboard_text self text now) = text) ∧
  (∀ text now0 images c now,
     Forall image_call images ->
     wait_for_text c = Some text -> wait_for_image c = None ->
     let self' := run (process_clipboard_text self text now0) images in
     current_content self' = text ∧ check_clipboard self' c now = self') ∧
  (∀ p data now,
     save_to_bufferv p = (true, data) -> 1 <= max_history self ->
     ∃ item rest,
       history (process_clipboard_image self p now) = item :: rest ∧
       type item = "image").
Proof.
  split_and!.
  - apply process_clipboard_image_current_content.
  - apply process_clipboard_text_current_content.
  - intros text now0 images c now Himages Hc Hp self'.
    assert (current_content self' = text) as Hcur.
    { unfold self'. rewrite image_calls_current_content by done.
      apply process_clipboard_text_current_content. }
    split; [done |].
    rewrite check_clipboard_same_text by (by rewrite Hcur).
    by rewrite Hp.
  - apply process_clipboard_image_head.
Qed.

(** ** Search *)

Lemma append_String c (s t : string) : String c s +:+ t = String c (s +:+ t).
Proof. reflexivity. Qed.

Lemma append_empty (t : string) : "" +:+ t = t.
Proof. reflexivity. Qed.

Lemma prefix_spec (a b : string) :
  String.prefix a b = true ↔ ∃ post, b = a +:+ post.
Proof.
  revert b. induction a as [|c a IH]; intros b.
  - split; [by exists b | by destruct b].
  - destruct b as [|c' b]; simpl; [split; [done | intros [? ?]; done] |].
    destruct (Ascii.ascii_dec c c') as [->|Hne].
    + rewrite IH. split; intros [post Hpost]; exists post;
        rewrite append_String in *; congruence.
    + split; [done |]. intros [post Hpost]. rewrite append_String in Hpost.
      congruence.
Qed.

Lemma str_in_String needle c (hay : string) :
  str_in needle (String c hay) =
  String.prefix needle (String c hay) || str_in needle hay.
Proof. reflexivity. Qed.

Lemma str_in_spec (needle hay : string) :
  str_in needle hay = true ↔ ∃ pre post, hay = pre +:+ needle +:+ post.
Proof.
  induction hay as [|c hay IH].
  - change (str_in needle "") with (String.prefix needle "" || false).
    rewrite orb_false_r, prefix_spec. split.
    + intros [post ->]. by exists "", post.
    + intros ([|??] & post & Heq); [by exists post | done].
  - rewrite str_in_String, orb_true_iff, prefix_spec, IH. split.
    + intros [[post ->]|(pre & post & ->)];
        [by exists "", post | by exists (String c pre), post].
    + intros ([|c' pre] & post & Heq).
      * left. by exists post.
      * right. exists pre, post. rewrite append_String in Heq. congruence.
Qed.









(** ** Selection *)

Lemma on_item_clicked_store self row :
  let self' := on_item_clicked self row in
  history self' = history self ∧
  current_content self' = current_content self ∧
  max_history self' = max_history self ∧
  history_file self' = history_file self ∧
  listbox self' = listbox self.
Proof.
  destruct row as [item|]; simpl; [| done].
  unfold on_item_clicked. by repeat case_match.
Qed.


(** ** Settings *)

Lemma process_clipboard_text_new self text now :
  0 <= max_history self ->
  (∀ item, item ∈ history self -> ¬ text_match text item) ->
  within_capacity (process_clipboard_text self text now).
Proof.
  intros Hcap Hnew. unfold process_clipboard_text. simpl.
  destruct (list_find _ _) as [[i x]|] eqn:Hfind; simpl.
  - apply list_find_Some in Hfind as (Hi & HP & _).
    destruct (Hnew x); [by eapply list_elem_of_lookup_2 | done].
  - by apply (limit_within_capacity (set_history (set_current_content self text) _)).
Qed.

Lemma process_clipboard_image_new self p data now :
  0 <= max_history self ->
  save_to_bufferv p = (true, data) ->
  (∀ item, item ∈ history self -> ¬ image_match (b64encode data) item) ->
  within_capacity (process_clipboard_image self p now).
Proof.
  intros Hcap Hsave Hnew. unfold process_clipboard_image. rewrite Hsave.
  destruct (list_find _ _) as [[i x]|] eqn:Hfind; simpl.
  - apply list_find_Some in Hfind as (Hi & HP & _).
    destruct (Hnew x); [by eapply list_elem_of_lookup_2 | done].
  - by apply (limit_within_capacity (set_history self _)).
Qed.

Lemma process_clipboard_text_cut self text now :
  0 <= max_history self ->
  (∀ item, item ∈ history self -> ¬ text_match text item) ->
  history (process_clipboard_text self text now) =
    take (Z.to_nat (max_history self))
      ({| content := text; timestamp := now; type := "text"; image_data := None |}
         :: history self).
Proof.
  intros Hcap Hnew. unfold process_clipboard_text. simpl.
  destruct (list_find _ _) as [[i x]|] eqn:Hfind; simpl.
  - apply list_find_Some in Hfind as (Hi & HP & _).
    destruct (Hnew x); [by eapply list_elem_of_lookup_2 | done].
  - by rewrite limit_history.
Qed.

Lemma process_clipboard_image_cut self p data now :
  0 <= max_history self ->
  save_to_bufferv p = (true, data) ->
  (∀ item, item ∈ history self -> ¬ image_match (b64encode data) item) ->
  history (process_clipboard_image self p now) =
    take (Z.to_nat (max_history self))
      (image_item now (b64encode data) :: history self).
Proof.
  intros Hcap Hsave Hnew. unfold process_clipboard_image. rewrite Hsave.
  destruct (list_find _ _) as [[i x]|] eqn:Hfind; simpl.
  - apply list_find_Some in Hfind as (Hi & HP & _).
    destruct (Hnew x); [by eapply list_elem_of_lookup_2 | done].
  - by rewrite limit_history.
Qed.

Lemma on_settings_store self r value :
  let self' := on_settings self r value in
  history self' = history self ∧
  history_file self' = history_file self ∧
  listbox self' = listbox self ∧
  current_content self' = current_content self ∧
  events self' = events self.
Proof. by destruct r. Qed.

(** C3, amended.  [on_settings] raises nothing and refuses no value.
    Answered with OK it stores the integer read from the spin button as
    [max_history], unchecked, and leaves the history, the rows, the
    persisted file and [current_content] as they are: a history longer
    than the new bound is not cut.  Answered otherwise it changes nothing.
    The new bound is applied by the next call that stores a new entry: the
    history is then the list with the new entry in front, cut from the tail
    to its first [max_history] entries, and so within the bound. *)
Theorem on_settings_sets_bound self r value :
  let self' := on_settings self r value in
  history self' = history self ∧
  history_file self' = history_file self ∧
  listbox self' = listbox self ∧
  current_content self' = current_content self ∧
  events self' = events self ∧
  (r ≠ OK -> self' = self) ∧
  (r = OK ->
   max_history self' = value ∧
   (0 <= value ->
    (∀ text now,
       (∀ item, item ∈ history self -> ¬ text_match text item) ->
       history (process_clipboard_text self' text now) =
         take (Z.to_nat value)
           ({| content := text; timestamp := now; type := "text";
               image_data := None |} :: history self) ∧
       within_capacity (process_clipboard_text self' text now)) ∧
    (∀ p data now,
       save_to_bufferv p = (true, data) ->
       (∀ item, item ∈ history self -> ¬ image_match (b64encode data) item) ->
       history (process_clipboard_image self' p now) =
         take (Z.to_nat value) (image_item now (b64encode data) :: history self) ∧
       within_capacity (process_clipboard_image self' p now)))).
Proof.
  intros self'. unfold self', on_settings.
  split_and!; try by destruct r.
  intros ->. simpl. split; [done |]. intros Hvalue. split.
  - intros text now Hnew. split.
    + by rewrite process_clipboard_text_cut.
    + by apply process_clipboard_text_new.
  - intros p data now Hsave Hnew. split.
    + by erewrite process_clipboard_image_cut.
    + by eapply process_clipboard_image_new.
Qed.

(** ** Persistence *)

Lemma saved_form_id item : image_data item ≠ Some "" -> saved_form item = item.
Proof.
  destruct item as [c t ty [d|]]; unfold saved_form; simpl; [| done].
  intros Hd. unfold truthy. destruct (String.eqb_spec d ""); [congruence | done].
Qed.

Lemma from_dict_to_dict item :
  fromisoformat (isoformat (timestamp item)) = Some (timestamp item) ->
  from_dict (JDict (to_dict item)) = inr (saved_form item).
Proof.
  intros Hts. destruct item as [c t ty d]. simpl in Hts.
  unfold from_dict, to_dict, saved_form, getitem, contains_key. simpl.
  destruct d as [d|]; [destruct (truthy d) |]; by simplify_map_eq.
Qed.

Lemma from_dicts_to_dicts (items : list ClipboardItem) :
  (∀ item, item ∈ items ->
     fromisoformat (isoformat (timestamp item)) = Some (timestamp item)) ->
  from_dicts (JDict ∘ to_dict <$> items) = inr (saved_form <$> items).
Proof.
  induction items as [|item items IH]; intros Hts; [done |].
  rewrite !fmap_cons. cbn [from_dicts compose].
  rewrite from_dict_to_dict by (apply Hts; left).
  rewrite IH; [done |]. intros ? ?. apply Hts. by right.
Qed.

Lemma init_list data items :
  from_dicts data = inr items ->
  history (init (Parsed (JList data))) = items ∧
  listbox (init (Parsed (JList data))) = items ∧
  max_history (init (Parsed (JList data))) = 30 ∧
  events (init (Parsed (JList data))) = items ≫= preview_error.
Proof.
  intros Hitems. unfold init, read_history. simpl. rewrite Hitems. simpl.
  by destruct items.
Qed.

Lemma saved_form_payload item : payload (saved_form item) = payload item.
Proof.
  destruct item as [c t ty [d|]]; unfold saved_form, payload; simpl; [| done].
  unfold truthy. by destruct (String.eqb_spec d "") as [->|].
Qed.

(** C5.  When [fromisoformat] reads back what [isoformat] writes for the
    timestamps at hand, as the library promises, starting the program on
    the file [save_history] wrote gives as many entries as were saved, in
    the same order, each with the content, the kind, the timestamp and the
    characters of the payload of the saved entry at its index.  A history
    without empty payloads comes back equal; the load reports no error of
    the history, and prints only the error of the preview of each image
    entry whose payload cannot be loaded. *)
Theorem save_then_load self :
  (∀ item, item ∈ history self ->
     fromisoformat (isoformat (timestamp item)) = Some (timestamp item)) ->
  let self' := init (history_file (save_history self)) in
  length (history self') = length (history self) ∧
  Forall2 (λ loaded saved,
             content loaded = content saved ∧
             type loaded = type saved ∧
             timestamp loaded = timestamp saved ∧
             payload loaded = payload saved)
    (history self') (history self) ∧
  history self' = saved_form <$> history self ∧
  ((∀ item, item ∈ history self -> image_data item ≠ Some "") ->
   history self' = history self) ∧
  events self' = history self' ≫= preview_error.
Proof.
  intros Hts self'.
  destruct (init_list _ _ (from_dicts_to_dicts (history self) Hts))
    as (Hh & _ & _ & He).
  assert (history self' = saved_form <$> history self) as Hh' by done.
  split_and!; [| | done | |].
  - by rewrite Hh', length_fmap.
  - rewrite Hh'. apply Forall2_fmap_l, Forall_Forall2_diag, Forall_forall.
    intros item _. split_and!; [done | done | done |].
    apply saved_form_payload.
  - intros Hpayload. rewrite Hh'.
    rewrite <- (list_fmap_id (history self)) at 2.
    apply list_fmap_ext. intros i item Hi. apply saved_form_id, Hpayload.
    by eapply list_elem_of_lookup_2.
  - rewrite Hh'. exact He.
Qed.

Lemma from_dicts_inr data items :
  from_dicts data = inr items ↔
  Forall2 (λ d item, from_dict d = inr item) data items.
Proof.
  revert items. induction data as [|d data IH]; intros items; simpl.
  - split; [intros [= <-]; constructor | by inversion 1].
  - destruct (from_dict d) as [e|item] eqn:Hd.
    + split; [done |]. inversion 1; congruence.
    + destruct (from_dicts data) as [e|items'] eqn:Hdata.
      * split; [done |]. inversion 1 as [|???? Hd' Hrest]; subst.
        apply IH in Hrest. congruence.
      * split.
        -- intros [= <-]. constructor; [done | by apply IH].
        -- inversion 1 as [|???? Hd' Hrest]; subst. apply IH in Hrest.
           congruence.
Qed.

Lemma from_dicts_inl data e :
  from_dicts data = inl e ↔
  ∃ i d, data !! i = Some d ∧ from_dict d = inl e ∧
         ∀ j d', data !! j = Some d' -> (j < i)%nat -> ∃ item, from_dict d' = inr item.
Proof.
  induction data as [|d data IH]; simpl.
  - split; [done | by intros (i & ? & ? & _)].
  - destruct (from_dict d) as [e'|item] eqn:Hd.
    + split.
      * intros [= ->]. exists 0%nat, d. split_and!; [done | done |]. lia.
      * intros ([|i] & d' & Hi & Hd' & Hleast); simpl in Hi.
        -- congruence.
        -- destruct (Hleast 0%nat d) as [? ?]; [done | lia | congruence].
    + destruct (from_dicts data) as [e'|items] eqn:Hdata.
      * split.
        -- intros [= ->]. destruct (proj1 IH eq_refl) as (i & d' & Hi & Hd' & Hleast).
           exists (S i), d'. split_and!; [done | done |].
           intros [|j] d'' Hj Hlt; simpl in Hj; [by exists item; congruence |].
           apply (Hleast j); [done | lia].
        -- intros ([|i] & d' & Hi & Hd' & Hleast); simpl in Hi; [congruence |].
           f_equal. assert (inl e' = inl e :> exn + list ClipboardItem) as [= ->];
             [| done].
           apply IH. exists i, d'. split_and!; [done | done |].
           intros j d'' Hj Hlt. apply (Hleast (S j)); [done | lia].
      * split; [done |].
        intros ([|i] & d' & Hi & Hd' & Hleast); simpl in Hi; [congruence |].
        assert (inr items = inl e :> exn + list ClipboardItem); [| done].
        apply IH. exists i, d'. split_and!; [done | done |].
        intros j d'' Hj Hlt. apply (Hleast (S j)); [done | lia].
Qed.

(** C8, amended.  [load_history] first calls [os.makedirs] outside its
    [try]: when that raises, the exception leaves [__init__] and the
    application does not start, whatever the file.  When it returns,
    [__init__] returns in every case: starting on a missing file gives the
    empty history and logs nothing.  When [open] or [json.load] raises, or
    the document is a list one of whose elements [from_dict] raises on (the
    first such element decides), the error is printed and the history is
    empty.  When the document parses but is not a list, the history is
    empty and nothing is printed. *)
Theorem load_missing_or_malformed f :
  (∀ e, construct (DirectoryRefused e) f = inl e) ∧
  construct DirectoryThere f = inr (init f) ∧
  (f = NoFile -> init f = new_window f) ∧
  (∀ e, f = Unreadable e ->
     init f = emit (new_window f) (PrintErrorLoadingHistory e)) ∧
  (∀ data i d e,
     f = Parsed (JList data) ->
     data !! i = Some d -> from_dict d = inl e ->
     (∀ j d', data !! j = Some d' -> (j < i)%nat -> ∃ item, from_dict d' = inr item) ->
     init f = emit (new_window f) (PrintErrorLoadingHistory e)) ∧
  (∀ doc, f = Parsed doc -> (∀ data, doc ≠ JList data) ->
     init f = new_window f) ∧
  (history (init f) = [] ∨
   ∃ data, f = Parsed (JList data) ∧
           Forall2 (λ d item, from_dict d = inr item) data (history (init f))).
Proof.
  split_and!.
  - done.
  - done.
  - by intros ->.
  - by intros e ->.
  - intros data i d e -> Hi Hd Hleast. unfold init, read_history. simpl.
    assert (from_dicts data = inl e) as ->; [| done].
    apply from_dicts_inl. by exists i, d.
  - intros doc -> Hdoc. unfold init, read_history. simpl.
    destruct doc; try done. by destruct (Hdoc elems).
  - destruct f as [|e|doc]; [by left | by left |].
    destruct doc as [data| | |]; [| by left..].
    destruct (from_dicts data) as [e|items] eqn:Hdata.
    + left. unfold init, read_history. simpl. by rewrite Hdata.
    + right. exists data. split; [done |].
      destruct (init_list data items Hdata) as (-> & _).
      by apply from_dicts_inr.
Qed.

(** C9. When [from_dict] accepts every element of the list in the file,
    the history after start-up is the list of the items it builds, one per
    element and in the order of the file, however many they are and
    whichever repeat; [max_history] is 30 whatever the length. *)
Theorem load_installs_file_verbatim data items :
  Forall2 (λ d item, from_dict d = inr item) data items ->
  let self := init (Parsed (JList data)) in
  history self = items ∧
  length (history self) = length data ∧
  max_history self = 30.
Proof.
  intros Hitems self.
  destruct (init_list data items) as (Hh & _ & Hm & _); [by apply from_dicts_inr |].
  split_and!; [done | | done].
  unfold self. rewrite Hh. symmetry. by eapply Forall2_length.
Qed.

End Properties.

(** * The concrete library *)

Section PyFacts.
Import Py.
Local Open Scope N_scope.

Lemma append_assoc (a b c : string) : (a +:+ b) +:+ c = a +:+ (b +:+ c).
Proof.
  induction a as [|x a IH]; [done |].
  rewrite !append_String. by rewrite IH.
Qed.

Lemma digit_val_digit n : digit_val (digit n) = Some (n mod 10).
Proof.
  unfold digit_val, digit.
  assert (n mod 10 < 10) as Hlt by (apply N.mod_upper_bound; lia).
  generalize dependent (n mod 10). intros m Hm.
  rewrite N_ascii_embedding by lia.
  replace (48 <=? 48 + m) with true by (symmetry; apply N.leb_le; lia).
  replace (48 + m <=? 57) with true by (symmetry; apply N.leb_le; lia).
  simpl. f_equal. lia.
Qed.

Lemma take_digits_from_snoc w acc s :
  take_digits_from acc (S w) s =
  '(v, s') ← take_digits_from acc w s;
  match s' with
  | EmptyString => None
  | String c s'' => d ← digit_val c; Some (10 * v + d, s'')
  end.
Proof.
  revert acc s. induction w as [|w IH]; intros acc s.
  - simpl. destruct s as [|c s]; [done |]. by destruct (digit_val c).
  - change (take_digits_from acc (S (S w)) s) with
      (match s with
       | EmptyString => None
       | String c s' =>
         match digit_val c with
         | Some d => take_digits_from (10 * acc + d) (S w) s'
         | None => None
         end
       end).
    destruct s as [|c s]; [done |]. simpl (take_digits_from acc (S w) _).
    destruct (digit_val c) as [d|]; [| done]. apply IH.
Qed.

Lemma take_digits_from_zfill w n acc rest :
  n < 10 ^ N.of_nat w ->
  take_digits_from acc w (zfill w n +:+ rest) =
  Some (acc * 10 ^ N.of_nat w + n, rest).
Proof.
  revert n acc rest. induction w as [|w IH]; intros n acc rest Hn.
  - simpl in *. do 2 f_equal. lia.
  - rewrite take_digits_from_snoc.
    change (zfill (S w) n) with (zfill w (n / 10) +:+ String (digit n) "").
    rewrite append_assoc, append_String, append_empty.
    rewrite Nat2N.inj_succ, N.pow_succ_r' in *.
    rewrite IH by (apply N.Div0.div_lt_upper_bound; lia).
    simpl. rewrite digit_val_digit. simpl. do 2 f_equal.
    pose proof (N.div_mod n 10). lia.
Qed.

Lemma take_digits_zfill w n rest :
  n < 10 ^ N.of_nat w -> take_digits w (zfill w n +:+ rest) = Some (n, rest).
Proof.
  intros Hn. unfold take_digits. by rewrite take_digits_from_zfill.
Qed.

Lemma append_empty_r (s : string) : s +:+ "" = s.
Proof. induction s as [|c s IH]; [done |]. by rewrite append_String, IH. Qed.

Lemma take_digits_zfill_end w n :
  n < 10 ^ N.of_nat w -> take_digits w (zfill w n) = Some (n, "").
Proof.
  intros Hn. rewrite <- (append_empty_r (zfill w n)) at 1.
  by apply take_digits_zfill.
Qed.

#[local] Arguments zfill : simpl never.
#[local] Arguments valid : simpl never.
#[local] Arguments take_digits : simpl never.

Lemma days_in_month_le y m : days_in_month y m <= 31.
Proof. unfold days_in_month. repeat case_match; lia. Qed.

(** [fromisoformat] reads back what [isoformat] writes for every value a
    [datetime] can hold. *)
Lemma py_fromisoformat_isoformat t :
  valid t = true -> fromisoformat (isoformat t) = Some t.
Proof.
  intros Hvalid. pose proof Hvalid as Hv.
  unfold valid in Hv. repeat (apply andb_prop in Hv as [Hv ?]).
  repeat match goal with
    | H : (_ <=? _) = true |- _ => apply N.leb_le in H
    | H : (_ <? _) = true |- _ => apply N.ltb_lt in H
    end.
  pose proof (days_in_month_le (year t) (month t)).
  destruct t as [y mo d h mi se us]; simpl in *.
  unfold fromisoformat, isoformat, date_part, time_part; simpl.
  repeat rewrite ?append_assoc, ?append_String, ?append_empty.
  rewrite take_digits_zfill by (simpl; lia). simpl.
  rewrite take_digits_zfill by (simpl; lia). simpl.
  rewrite take_digits_zfill by (simpl; lia). simpl.
  rewrite take_digits_zfill by (simpl; lia). simpl.
  rewrite take_digits_zfill by (simpl; lia). simpl.
  destruct (N.eqb_spec us 0) as [->|Hus].
  - rewrite take_digits_zfill by (simpl; lia). simpl.
    by rewrite Hvalid.
  - repeat rewrite ?append_assoc, ?append_String, ?append_empty.
    rewrite take_digits_zfill by (simpl; lia). simpl.
    rewrite take_digits_zfill_end by (simpl; lia). simpl.
    by rewrite Hvalid.
Qed.

End PyFacts.

(** * The properties on the sample data *)

Section Samples.
Import Py Example.

(** The list [l] is replaced by its value. *)
Ltac evaluate l :=
  let v := eval vm_compute in l in change l with v in *.

(** Every timestamp of the samples is one a [datetime] can hold. *)
Ltac timestamps_read_back :=
  let item := fresh "item" in
  let Hin := fresh "Hin" in
  intros item Hin; apply py_fromisoformat_isoformat;
  revert item Hin; apply Forall_forall;
  repeat constructor.

(** The bound on four texts copied into a window of capacity 3. *)
Lemma history_bounded_witness :
  within_capacity small ∧
  Forall (λ self', within_capacity self' ∧ max_history self' = max_history small)
    (states small four_texts).
Proof.
  assert (within_capacity small) as Hcap by (by vm_compute).
  split; [exact Hcap |].
  exact (history_bounded_after_each_call small four_texts Hcap).
Defined.

(** With capacity 3, the texts A, B, C, D copied in that order leave D, C, B. *)
Example four_texts_leave_three :
  content <$> history (run small four_texts) = ["D"; "C"; "B"].
Proof. by vm_compute. Qed.

(** C2 as it stands fails for an image: the window that stored the sample
    image in the morning holds it as its first match, and when the same
    image is processed in the evening the entry put at index 0 does not
    have the content of the entry it replaces. *)
Lemma refreshed_image_has_new_content :
  first_match (image_match (b64encode png)) (history gallery) 0
    (image_item morning (b64encode png)) ∧
  ¬ ∃ new,
      history (process_clipboard_image gallery shot evening) =
        new :: delete 0%nat (history gallery) ∧
      content new = content (image_item morning (b64encode png)).
Proof.
  split.
  - split_and!; [done | done |]. intros j y _ Hj. lia.
  - intros (new & Hnew & Hcontent).
    assert (content <$> history (process_clipboard_image gallery shot evening) =
            ["Image 2024-03-09 19:30:15"]) as Hlabel by (by vm_compute).
    rewrite Hnew, fmap_cons, Hcontent in Hlabel.
    injection Hlabel as Hlabel _. vm_compute in Hlabel. discriminate Hlabel.
Qed.

(** The move to the front on the sample image processed a second time. *)
Lemma duplicate_moves_to_front_witness :
  (∃ item, item ∈ history gallery ∧ image_match (b64encode png) item) ∧
  ∃ i old,
    first_match (image_match (b64encode png)) (history gallery) i old ∧
    history (process_clipboard_image gallery shot evening) =
      {| content := "Image " +:+ strftime evening; timestamp := evening;
         type := "image"; image_data := image_data old |}
        :: delete i (history gallery) ∧
    length (history (process_clipboard_image gallery shot evening)) =
      length (history gallery).
Proof.
  assert (∃ item, item ∈ history gallery ∧ image_match (b64encode png) item)
    as Hex.
  { exists (image_item (L := library) morning (b64encode png)). split; [| done].
    evaluate (history gallery). left. }
  split; [exact Hex |].
  exact (proj1 (proj2 (duplicate_moves_to_front gallery evening))
           shot png eq_refl Hex).
Defined.

(** C3 as it stands fails: with six entries stored, answering the settings
    dialog with 5 raises nothing, sets the bound to 5 and leaves all six
    entries in the history and the file as it was. *)
Lemma settings_neither_truncate_nor_refuse :
  length (history six) = 6%nat ∧
  max_history (on_settings six OK 5) = 5 ∧
  history (on_settings six OK 5) = history six ∧
  ¬ within_capacity (on_settings six OK 5) ∧
  history_file (on_settings six OK 5) = history_file six.
Proof.
  destruct (on_settings_store six OK 5) as (Hh & Hf & _).
  split_and!.
  - by vm_compute.
  - reflexivity.
  - exact Hh.
  - unfold within_capacity. vm_compute. intros Hle. by apply Hle.
  - exact Hf.
Qed.

(** The bound 5 set on six stored entries, and applied by the next new
    text. *)
Lemma on_settings_sets_bound_witness :
  OK = OK ∧ 0 <= 5 ∧
  (∀ item, item ∈ history six -> ¬ text_match "g" item) ∧
  max_history (on_settings six OK 5) = 5 ∧
  history (on_settings six OK 5) = history six ∧
  history (process_clipboard_text (on_settings six OK 5) "g" evening) =
    take (Z.to_nat 5)
      ({| content := "g"; timestamp := evening; type := "text";
          image_data := None |} :: history six) ∧
  within_capacity (process_clipboard_text (on_settings six OK 5) "g" evening).
Proof.
  assert (0 <= 5) as Hvalue by lia.
  assert (∀ item, item ∈ history six -> ¬ text_match "g" item) as Hnew.
  { apply Forall_forall. evaluate (history six).
    repeat constructor; by intros [_ ?]. }
  destruct (on_settings_sets_bound six OK 5) as (Hh & _ & _ & _ & _ & _ & Hok).
  destruct (Hok eq_refl) as (Hm & Hcut).
  destruct (Hcut Hvalue) as (Htext & _).
  destruct (Htext "g" evening Hnew) as (Hhist & Hcap).
  split_and!; [reflexivity | exact Hvalue | exact Hnew | exact Hm | exact Hh
               | exact Hhist | exact Hcap].
Defined.

(** After the bound 5 was set on the six texts, the text g leaves g and the
    four newest of the six. *)
Example new_text_applies_new_bound :
  content <$> history (process_clipboard_text (on_settings six OK 5) "g" evening) =
    ["g"; "f"; "e"; "d"; "c"].
Proof. by vm_compute. Qed.



(** Saving and starting again on a text and an image. *)
Lemma save_then_load_witness :
  (∀ item, item ∈ history text_then_image ->
     fromisoformat (isoformat (timestamp item)) = Some (timestamp item)) ∧
  (∀ item, item ∈ history text_then_image -> image_data item ≠ Some "") ∧
  length (history (init (history_file (save_history text_then_image)))) =
    length (history text_then_image) ∧
  Forall2 (λ loaded saved,
             content loaded = content saved ∧
             type loaded = type saved ∧
             timestamp loaded = timestamp saved ∧
             payload loaded = payload saved)
    (history (init (history_file (save_history text_then_image))))
    (history text_then_image) ∧
  history (init (history_file (save_history text_then_image))) =
    history text_then_image.
Proof.
  assert (∀ item, item ∈ history text_then_image ->
            fromisoformat (isoformat (timestamp item)) = Some (timestamp item))
    as Hts.
  { evaluate (history text_then_image). timestamps_read_back. }
  assert (∀ item, item ∈ history text_then_image -> image_data item ≠ Some "")
    as Hpayload.
  { apply Forall_forall. evaluate (history text_then_image).
    repeat constructor; discriminate. }
  destruct (save_then_load text_then_image Hts) as (Hlen & Hall & _ & Heq & _).
  split_and!; [exact Hts | exact Hpayload | exact Hlen | exact Hall |].
  exact (Heq Hpayload).
Defined.

(** The image whose payload is the empty string has the same payload
    characters, none, after saving and starting again. *)
Example empty_payload_round_trip :
  payload <$> history hollow_window = [""] ∧
  payload <$> history (init (history_file (save_history hollow_window))) = [""] ∧
  content <$> history (init (history_file (save_history hollow_window))) =
    content <$> history hollow_window.
Proof. split_and!; by vm_compute. Qed.

(** C6 as it stands fails: the window that saw the text hello holds one
    entry; at a tick at which the clipboard offers that same text and an
    image, the image is stored above it, and at the next such tick the
    image entry is replaced by one with the time of that tick. *)
Lemma text_beside_image_is_not_ignored :
  wait_for_text both = Some (current_content greeted) ∧
  content <$> history greeted = ["hello"] ∧
  content <$> history (check_clipboard greeted both noon) =
    ["Image 2024-03-09 12:00:30"; "hello"] ∧
  content <$> history (check_clipboard (check_clipboard greeted both noon)
                         both evening) =
    ["Image 2024-03-09 19:30:15"; "hello"] ∧
  history (check_clipboard greeted both noon) ≠ history greeted.
Proof.
  split_and!; [by vm_compute | by vm_compute | by vm_compute | by vm_compute |].
  intros Heq. apply (f_equal (fmap content)) in Heq. vm_compute in Heq.
  discriminate Heq.
Qed.

(** Two ticks on the text last seen, below an image in the history. *)
Lemma unchanged_text_is_ignored_witness :
  Forall (unchanged_text_poll text_then_image)
    [Poll (holding "hello") noon; Poll (holding "hello") evening] ∧
  Forall (λ self', self' = text_then_image)
    (states text_then_image
       [Poll (holding "hello") noon; Poll (holding "hello") evening]).
Proof.
  assert (Forall (unchanged_text_poll text_then_image)
            [Poll (holding "hello") noon; Poll (holding "hello") evening])
    as Hcalls by (repeat constructor).
  split; [exact Hcalls |].
  exact (proj2 (proj2 (unchanged_text_is_ignored text_then_image)) _ Hcalls).
Defined.



(** The search in capitals lists the image and not the text hello. *)
Example search_for_image_lists_the_image :
  content <$> listbox (on_search_changed text_then_image "IMAGE") =
    ["Image 2024-03-09 12:00:30"].
Proof. by vm_compute. Qed.

(** C8 as it stands fails: on a file whose document is an object, which
    is not a list of records, start-up gives the empty history and prints
    nothing; and when the configuration directory cannot be made, start-up
    ends with the error, the file missing or not. *)
Lemma object_file_is_not_reported :
  (∀ data, object_file ≠ Parsed (JList data)) ∧
  history (init object_file) = [] ∧
  events (init object_file) = [] ∧
  construct (DirectoryRefused OSError) NoFile = inl OSError ∧
  construct (DirectoryRefused OSError) object_file = inl OSError.
Proof. split_and!; [discriminate | done | done | done | done]. Qed.

(** Start-up on a list whose second record has no timestamp. *)
Lemma load_missing_or_malformed_witness :
  broken !! 1%nat =
    Some (JDict (<["content" := "second"]> (<["type" := "text"]> ∅))) ∧
  from_dict (JDict (<["content" := "second"]> (<["type" := "text"]> ∅))) =
    inl (KeyError "timestamp") ∧
  construct DirectoryThere (Parsed (JList broken)) =
    inr (init (Parsed (JList broken))) ∧
  init (Parsed (JList broken)) =
    emit (new_window (Parsed (JList broken)))
      (PrintErrorLoadingHistory (KeyError "timestamp")).
Proof.
  assert (from_dict (JDict (<["content" := "second"]> (<["type" := "text"]> ∅))) =
          inl (KeyError "timestamp")) as Hbad by reflexivity.
  destruct (load_missing_or_malformed (Parsed (JList broken)))
    as (_ & Hstarts & _ & _ & Hlist & _).
  split_and!; [done | exact Hbad | exact Hstarts |].
  refine (Hlist broken 1%nat _ (KeyError "timestamp") eq_refl eq_refl Hbad _).
  intros [|j] d' Hj Hlt; [| lia].
  injection Hj as <-. eexists. reflexivity.
Defined.

(** Start-up on 31 equal records: all 31 are in the history, above the
    bound of 30. *)
Lemma load_installs_file_verbatim_witness :
  Forall2 (λ d item, from_dict d = inr item) crowded
    (replicate 31
       {| content := "same"; timestamp := morning; type := "text";
          image_data := None |}) ∧
  length (history (init (Parsed (JList crowded)))) = 31%nat ∧
  max_history (init (Parsed (JList crowded))) = 30.
Proof.
  assert (Forall2 (λ d item, from_dict d = inr item) crowded
            (replicate 31
               {| content := "same"; timestamp := morning; type := "text";
                  image_data := None |})) as Hitems.
  { apply from_dicts_inr. reflexivity. }
  split; [exact Hitems |].
  destruct (load_installs_file_verbatim crowded _ Hitems) as (_ & Hlen & Hmax).
  split; [exact Hlen | exact Hmax].
Defined.

(** The text last seen is ignored after an image was stored above it. *)
Lemma image_keeps_current_content_witness :
  Forall image_call [Poll (showing shot) noon] ∧
  current_content text_then_image = "hello" ∧
  check_clipboard text_then_image (holding "hello") evening = text_then_image ∧
  ∃ item rest,
    history (process_clipboard_image fresh shot noon) = item :: rest ∧
    type item = "image".
Proof.
  assert (Forall image_call [Poll (showing shot) noon]) as Himages
    by (repeat constructor).
  destruct (image_keeps_current_content fresh) as (_ & _ & Hsuppressed & _).
  destruct (Hsuppressed "hello" morning [Poll (showing shot) noon]
              (holding "hello") evening Himages eq_refl eq_refl)
    as [Hcur Hsame].
  destruct (image_keeps_current_content fresh) as (_ & _ & _ & Hhead).
  split_and!; [exact Himages | exact Hcur | exact Hsame |].
  refine (Hhead shot png noon eq_refl _). by vm_compute.
Defined.

End Samples.

(** * Further properties of the history store *)

Section Further.
Context `{L : Library}.

Implicit Types (self : FluentClip) (item : ClipboardItem).

(** ** Entries stay distinct *)

Lemma text_match_key text item :
  text_match text item ↔ entry_key item = Some ("text", text).
Proof.
  unfold text_match, entry_key.
  destruct (decide (type item = "text")) as [Hty|Hty].
  - split; [by intros [_ ->] | intros [= ->]; done].
  - split; [by intros [? _] |].
    destruct (decide (type item = "image")); [| done].
    by destruct (image_data item).
Qed.

Lemma image_match_key data item :
  image_match data item ↔ entry_key item = Some ("image", data).
Proof.
  unfold image_match, entry_key.
  destruct (decide (type item = "text")) as [Hty|Hty].
  - split; [intros [Hty' _]; by rewrite Hty in Hty' | done].
  - destruct (decide (type item = "image")) as [Hty'|Hty'].
    + destruct (image_data item); split; try done.
      * by intros [_ [= ->]].
      * by intros [= ->].
      * by intros [_ ?].
    + split; [by intros [? _] | done].
Qed.

Lemma omap_sublist {A B} (f : A -> option B) (l1 l2 : list A) :
  l1 `sublist_of` l2 -> omap f l1 `sublist_of` omap f l2.
Proof.
  induction 1 as [|x l1 l2 _ IH|x l1 l2 _ IH]; simpl.
  - constructor.
  - destruct (f x); [by constructor | done].
  - destruct (f x); [by constructor | done].
Qed.

Lemma distinct_sublist (l1 l2 : list ClipboardItem) :
  l1 `sublist_of` l2 -> distinct l2 -> distinct l1.
Proof.
  unfold distinct. intros Hsub Hl.
  exact (sublist_NoDup _ _ Hl (omap_sublist entry_key _ _ Hsub)).
Qed.

Lemma distinct_move_to_front (l : list ClipboardItem) i old new :
  distinct l -> l !! i = Some old -> entry_key new = entry_key old ->
  distinct (new :: delete i l).
Proof.
  unfold distinct. intros Hl Hi Hkey.
  rewrite <- (take_drop_middle l i old Hi) in Hl.
  rewrite delete_take_drop. rewrite omap_app in Hl. simpl in *.
  rewrite omap_app, Hkey. revert Hl. destruct (entry_key old) as [k|]; [| done].
  by rewrite <- Permutation_middle.
Qed.

Lemma distinct_cons_new (l : list ClipboardItem) new k :
  distinct l -> entry_key new = Some k ->
  Forall (λ y, entry_key y ≠ Some k) l ->
  distinct (new :: l).
Proof.
  unfold distinct. intros Hl Hkey Hnew. simpl. rewrite Hkey.
  apply NoDup_cons. split; [| done].
  intros (y & Hy & Hk)%list_elem_of_omap.
  by apply (proj1 (Forall_forall _ _) Hnew y Hy).
Qed.

Lemma slice_to_sublist {A} (l : list A) n : slice_to l n `sublist_of` l.
Proof. unfold slice_to. destruct (0 <=? n); apply sublist_take. Qed.

Lemma limit_sublist self : history (limit self) `sublist_of` history self.
Proof.
  unfold limit. destruct (_ >? _); simpl; [apply slice_to_sublist | done].
Qed.

Lemma process_clipboard_text_distinct self text now :
  distinct (history self) ->
  distinct (history (process_clipboard_text self text now)).
Proof.
  intros Hl. unfold process_clipboard_text. simpl.
  assert (entry_key {| content := text; timestamp := now; type := "text";
                       image_data := None |} = Some ("text", text)) as Hnew.
  { by apply text_match_key. }
  destruct (list_find _ _) as [[i old]|] eqn:Hfind; simpl.
  - apply list_find_Some in Hfind as (Hi & Hold & _).
    apply (distinct_move_to_front _ i old); [done | done |].
    apply text_match_key in Hold. by rewrite Hnew, Hold.
  - apply list_find_None in Hfind.
    eapply distinct_sublist;
      [apply (limit_sublist (set_history (set_current_content self text) _)) |].
    simpl. eapply distinct_cons_new; [done | done |].
    eapply Forall_impl; [exact Hfind |].
    intros y Hy Hk. simpl in Hy. by apply Hy, text_match_key.
Qed.

Lemma process_clipboard_image_distinct self p now :
  distinct (history self) ->
  distinct (history (process_clipboard_image self p now)).
Proof.
  intros Hl. unfold process_clipboard_image.
  destruct (save_to_bufferv p) as [[] data]; [| done].
  assert (entry_key (image_item now (b64encode data)) =
          Some ("image", b64encode data)) as Hnew.
  { by apply image_match_key. }
  destruct (list_find _ _) as [[i old]|] eqn:Hfind; simpl.
  - apply list_find_Some in Hfind as (Hi & Hold & _).
    apply (distinct_move_to_front _ i old); [done | done |].
    apply image_match_key in Hold. by rewrite Hnew, Hold.
  - apply list_find_None in Hfind.
    eapply distinct_sublist; [apply (limit_sublist (set_history self _)) |].
    simpl. eapply distinct_cons_new; [done | done |].
    eapply Forall_impl; [exact Hfind |].
    intros y Hy Hk. simpl in Hy. by apply Hy, image_match_key.
Qed.

Lemma observe_distinct self k :
  distinct (history self) -> distinct (history (observe self k)).
Proof.
  intros Hl. destruct k as [text now|p now|c now]; simpl.
  - by apply process_clipboard_text_distinct.
  - by apply process_clipboard_image_distinct.
  - unfold check_clipboard.
    repeat case_match;
      auto using process_clipboard_text_distinct,
        process_clipboard_image_distinct.
Qed.

(** X1. When no two entries of the history are a text with the same
    content or an image with the same payload, this is still so after each
    call of any sequence of [process_clipboard_text],
    [process_clipboard_image] and [check_clipboard] calls. *)
Theorem entries_stay_distinct self calls :
  distinct (history self) ->
  Forall (λ self', distinct (history self')) (states self calls).
Proof.
  revert self. induction calls as [|k calls IH]; intros self Hl; simpl.
  - constructor.
  - constructor; [by apply observe_distinct |].
    by apply IH, observe_distinct.
Qed.

(** ** Older entries keep their order *)

Lemma tail_take_sublist {A} (x : A) (l : list A) n :
  tail (take n (x :: l)) `sublist_of` l.
Proof. destruct n; simpl; [apply sublist_nil_l | apply sublist_take]. Qed.

Lemma tail_sublist {A} (l : list A) : tail l `sublist_of` l.
Proof. destruct l; simpl; [done | by apply sublist_cons]. Qed.

Lemma tail_limit_cons self x l :
  history self = x :: l -> tail (history (limit self)) `sublist_of` l.
Proof.
  intros Hh. unfold limit. destruct (_ >? _); simpl; rewrite Hh; [| done].
  unfold slice_to. destruct (0 <=? _); apply tail_take_sublist.
Qed.

Lemma length_limit self :
  (length (history (limit self)) <= length (history self))%nat.
Proof. apply sublist_length, limit_sublist. Qed.

(** X2. A call never reorders or brings back older entries and adds at
    most one: whatever comes after index 0 of the new history is a
    subsequence of the old history, in the old order, and the new history
    is at most one entry longer than the old one. *)
Theorem older_entries_keep_order self k :
  tail (history (observe self k)) `sublist_of` history self ∧
  (length (history (observe self k)) <= S (length (history self)))%nat.
Proof.
  assert (∀ text now,
    tail (history (process_clipboard_text self text now)) `sublist_of` history self ∧
    (length (history (process_clipboard_text self text now))
       <= S (length (history self)))%nat) as Htext.
  { intros text now. unfold process_clipboard_text. simpl.
    destruct (list_find _ _) as [[i old]|] eqn:Hfind; simpl.
    - split; [apply sublist_delete |].
      pose proof (sublist_length _ _ (sublist_delete (history self) i)). lia.
    - split.
      + by eapply (tail_limit_cons (set_history (set_current_content self text) _)).
      + pose proof (length_limit (set_history (set_current_content self text)
          ({| content := text; timestamp := now; type := "text";
              image_data := None |} :: history self))) as Hlen.
        simpl in Hlen. exact Hlen. }
  assert (∀ p now,
    tail (history (process_clipboard_image self p now)) `sublist_of` history self ∧
    (length (history (process_clipboard_image self p now))
       <= S (length (history self)))%nat) as Himage.
  { intros p now. unfold process_clipboard_image.
    destruct (save_to_bufferv p) as [[] data];
      [| split; [apply tail_sublist | lia]].
    destruct (list_find _ _) as [[i old]|] eqn:Hfind; simpl.
    - split; [apply sublist_delete |].
      pose proof (sublist_length _ _ (sublist_delete (history self) i)). lia.
    - split.
      + by eapply (tail_limit_cons (set_history self _)).
      + pose proof (length_limit (set_history self
          (image_item now (b64encode data) :: history self))) as Hlen.
        simpl in Hlen. exact Hlen. }
  destruct k as [text now|p now|c now]; simpl; [done | done |].
  unfold check_clipboard.
  repeat case_match; try done; split; (apply tail_sublist || lia).
Qed.

(** ** Every change is shown and persisted *)

Lemma save_refresh_synced self : synced (save_history (refresh_list self)).
Proof. by split. Qed.

Lemma process_clipboard_text_synced self text now :
  synced (process_clipboard_text self text now).
Proof.
  unfold process_clipboard_text.
  destruct (list_find _ _) as [[i old]|]; apply save_refresh_synced.
Qed.

Lemma process_clipboard_image_synced self p now :
  process_clipboard_image self p now = self ∨
  synced (process_clipboard_image self p now).
Proof.
  unfold process_clipboard_image.
  destruct (save_to_bufferv p) as [[] data]; [right | by left].
  destruct (list_find _ _) as [[i old]|]; apply save_refresh_synced.
Qed.

Lemma observe_synced self k :
  observe self k = self ∨ synced (observe self k).
Proof.
  destruct k as [text now|p now|c now]; simpl.
  - right. apply process_clipboard_text_synced.
  - apply process_clipboard_image_synced.
  - unfold check_clipboard.
    repeat case_match;
      auto using process_clipboard_text_synced,
        process_clipboard_image_synced.
Qed.









(** ** Restart *)

Lemma saved_form_idemp item : saved_form (saved_form item) = saved_form item.
Proof.
  destruct item as [c t ty [d|]]; unfold saved_form; simpl; [| done].
  destruct (truthy d) eqn:Hd; simpl; [by rewrite Hd | done].
Qed.

Lemma init_history_file f : history_file (init f) = f.
Proof. unfold init, read_history. simpl. by repeat case_match. Qed.

Lemma synced_restart self :
  synced self ->
  (∀ item, item ∈ history self ->
     fromisoformat (isoformat (timestamp item)) = Some (timestamp item)) ->
  history (init (history_file self)) = saved_form <$> history self.
Proof.
  intros [_ ->] Hts.
  by apply init_list, from_dicts_to_dicts.
Qed.

Lemma run_cons self k calls : run self (k :: calls) = run (observe self k) calls.
Proof. reflexivity. Qed.

Lemma run_synced self calls :
  run self calls = self ∨ synced (run self calls).
Proof.
  revert self. induction calls as [|k calls IH]; intros self; [by left |].
  rewrite run_cons. destruct (IH (observe self k)) as [-> | ?]; [| by right].
  apply observe_synced.
Qed.

(** X4. After any sequence of calls on a started window, starting again
    on the file then on disk gives the same history, an empty payload
    counting as no payload, when [fromisoformat] reads back what
    [isoformat] writes for the timestamps of that history. *)
Theorem restart_restores_history f calls :
  (∀ item, item ∈ history (run (init f) calls) ->
     fromisoformat (isoformat (timestamp item)) = Some (timestamp item)) ->
  saved_form <$> history (init (history_file (run (init f) calls))) =
  saved_form <$> history (run (init f) calls).
Proof.
  intros Hts. destruct (run_synced (init f) calls) as [Heq | Hsynced].
  - by rewrite Heq, init_history_file.
  - rewrite (synced_restart _ Hsynced Hts), <- list_fmap_compose.
    apply list_fmap_ext. intros i item _. simpl. apply saved_form_idemp.
Qed.

(** ** Clearing *)

(** X5. [on_clear_all] answered with YES empties the history and the list
    box and writes the empty list to the file, so that starting again
    gives the empty history with nothing printed; answered otherwise it
    changes nothing. *)
Theorem clear_then_restart_is_empty self r :
  (r = YES ->
   history (on_clear_all self r) = [] ∧
   listbox (on_clear_all self r) = [] ∧
   history_file (on_clear_all self r) = Parsed (JList []) ∧
   history (init (history_file (on_clear_all self r))) = [] ∧
   events (init (history_file (on_clear_all self r))) = []) ∧
  (r ≠ YES -> on_clear_all self r = self).
Proof.
  split; [by intros -> | by destruct r].
Qed.

(** X6. [on_clear_all] keeps [current_content]: after the history was
    cleared, ticks at which the clipboard still holds the text last seen
    (and no image) add nothing, and the history stays empty. *)
Theorem clear_keeps_last_seen self calls :
  Forall (unchanged_text_poll self) calls ->
  current_content (on_clear_all self YES) = current_content self ∧
  run (on_clear_all self YES) calls = on_clear_all self YES ∧
  history (run (on_clear_all self YES) calls) = [].
Proof.
  intros Hcalls.
  assert (run (on_clear_all self YES) calls = on_clear_all self YES) as Hrun.
  { induction Hcalls as [|k calls Hk _ IH]; [done |].
    rewrite run_cons. destruct k as [| |c now]; simpl in Hk; try done.
    destruct Hk as [Hc Hp]. simpl (observe _ _).
    rewrite check_clipboard_same_text, Hp by done. exact IH. }
  split_and!; [done | done | by rewrite Hrun].
Qed.

(** ** The newest entry *)

Lemma limit_cons_head self x l :
  1 <= max_history self -> history self = x :: l ->
  history (limit self) !! 0%nat = Some x.
Proof.
  intros Hcap Hh. rewrite limit_history, Hh by lia.
  destruct (Z.to_nat (max_history self)) eqn:Hn; [lia | done].
Qed.

(** X7. With a bound of at least 1, the entry a worker stores is at
    index 0 afterwards: the text with the time of the call, or the image
    with its label, the time of the call and the encoded PNG data. *)
Theorem newest_entry_is_first self now :
  1 <= max_history self ->
  (∀ text,
     history (process_clipboard_text self text now) !! 0%nat =
       Some {| content := text; timestamp := now; type := "text";
               image_data := None |}) ∧
  (∀ p data,
     save_to_bufferv p = (true, data) ->
     history (process_clipboard_image self p now) !! 0%nat =
       Some {| content := "Image " +:+ strftime now; timestamp := now;
               type := "image"; image_data := Some (b64encode data) |}).
Proof.
  intros Hcap. split.
  - intros text. unfold process_clipboard_text. simpl.
    destruct (list_find _ _) as [[i old]|]; simpl; [done |].
    by eapply (limit_cons_head (set_history (set_current_content self text) _)).
  - intros p data Hsave. unfold process_clipboard_image. rewrite Hsave.
    destruct (list_find _ _) as [[i old]|]; simpl; [done |].
    by eapply (limit_cons_head (set_history self _)).
Qed.

Lemma limit_full self x l :
  1 <= max_history self ->
  history self = x :: l -> Z.of_nat (length l) = max_history self ->
  history (limit self) = x :: take (length l - 1) l.
Proof.
  intros Hcap Hh Hfull. rewrite limit_history, Hh by lia.
  rewrite <- Hfull, Nat2Z.id. destruct l as [|y l]; [simpl in Hfull; lia |].
  simpl. by rewrite Nat.sub_0_r.
Qed.

(** X8. When the history is full (as long as [max_history], which is at
    least 1) and the text or image is not in it yet, the worker puts the
    new entry at index 0 and drops exactly the last entry; the others keep
    their order and the length stays the same. *)
Theorem full_history_drops_last self now :
  1 <= max_history self ->
  Z.of_nat (length (history self)) = max_history self ->
  (∀ text,
     (∀ item, item ∈ history self -> ¬ text_match text item) ->
     history (process_clipboard_text self text now) =
       {| content := text; timestamp := now; type := "text";
          image_data := None |}
         :: take (length (history self) - 1) (history self) ∧
     length (history (process_clipboard_text self text now)) =
       length (history self)) ∧
  (∀ p data,
     save_to_bufferv p = (true, data) ->
     (∀ item, item ∈ history self -> ¬ image_match (b64encode data) item) ->
     history (process_clipboard_image self p now) =
       image_item now (b64encode data)
         :: take (length (history self) - 1) (history self) ∧
     length (history (process_clipboard_image self p now)) =
       length (history self)).
Proof.
  intros Hcap Hfull.
  assert (∀ x : ClipboardItem,
    length (x :: take (length (history self) - 1) (history self)) =
    length (history self)) as Hlen.
  { intros x. simpl. rewrite length_take. lia. }
  split.
  - intros text Hnew. unfold process_clipboard_text. simpl.
    destruct (list_find _ _) as [[i old]|] eqn:Hfind; simpl.
    { apply list_find_Some in Hfind as (Hi & Hold & _).
      destruct (Hnew old); [by eapply list_elem_of_lookup_2 | done]. }
    rewrite (limit_full (set_history (set_current_content self text) _) _
               (history self) Hcap eq_refl Hfull).
    split; [done | apply Hlen].
  - intros p data Hsave Hnew. unfold process_clipboard_image. rewrite Hsave.
    destruct (list_find _ _) as [[i old]|] eqn:Hfind; simpl.
    { apply list_find_Some in Hfind as (Hi & Hold & _).
      destruct (Hnew old); [by eapply list_elem_of_lookup_2 | done]. }
    rewrite (limit_full (set_history self _) _ (history self) Hcap eq_refl Hfull).
    split; [done | apply Hlen].
Qed.

(** ** Selecting, then the next tick *)

Lemma process_clipboard_text_existing self text now :
  (∃ item, item ∈ history self ∧ text_match text item) ->
  ∃ i old,
    first_match (text_match text) (history self) i old ∧
    history (process_clipboard_text self text now) =
      {| content := text; timestamp := now; type := "text"; image_data := None |}
        :: delete i (history self).
Proof.
  intros Hex.
  destruct (first_match_exists (text_match text) (history self) Hex)
    as (i & old & Hfind & Hfirst).
  exists i, old. split; [done |].
  unfold process_clipboard_text. simpl. by rewrite Hfind.
Qed.

(** X9. Clicking the row of a text entry of the history writes its content
    to the system clipboard and leaves the history as it is; when the next
    tick reads that text back, and it is not blank and not the text last
    seen, the first text entry with that content is removed and an entry
    with that content and the time of the tick is put at index 0. *)
Theorem selected_text_moves_to_front self item c now :
  item ∈ history self -> type item = "text" ->
  wait_for_text c = Some (content item) ->
  content item ≠ current_content self ->
  truthy (content item) = true -> truthy (strip (content item)) = true ->
  ClipboardSetText (content item) ∈ events (on_item_clicked self (Some item)) ∧
  history (on_item_clicked self (Some item)) = history self ∧
  ∃ i old,
    first_match (text_match (content item)) (history self) i old ∧
    history (check_clipboard (on_item_clicked self (Some item)) c now) =
      {| content := content item; timestamp := now; type := "text";
         image_data := None |} :: delete i (history self).
Proof.
  intros Hin Hty Hc Hne Ht Hs.
  destruct (on_item_clicked_store self (Some item)) as (Hh & Hcur & _).
  split_and!; [| exact Hh |].
  - unfold on_item_clicked. rewrite Hty. simpl.
    rewrite !elem_of_app. left. right. left.
  - rewrite (check_clipboard_text _ c (content item) now Hc); [| by rewrite Hcur | done..].
    destruct (process_clipboard_text_existing
                (on_item_clicked self (Some item)) (content item) now)
      as (i & old & Hfirst & Hnew).
    { exists item. by rewrite Hh. }
    exists i, old. by rewrite <- Hh.
Qed.

(** ** Labels *)

Lemma length_append (a b : string) :
  String.length (a +:+ b) = (String.length a + String.length b)%nat.
Proof.
  induction a as [|c a IH]; [done |].
  rewrite append_String. simpl. by rewrite IH.
Qed.

Lemma length_str_slice_to (s : string) n :
  String.length (str_slice_to s n) = (n `min` String.length s)%nat.
Proof.
  unfold str_slice_to. revert s. induction n as [|n IH]; intros [|c s]; simpl;
    try done.
  by rewrite IH.
Qed.

Lemma str_slice_to_all (s : string) n :
  (String.length s <= n)%nat -> str_slice_to s n = s.
Proof.
  unfold str_slice_to. revert s. induction n as [|n IH]; intros [|c s]; simpl;
    try done; [lia |].
  intros Hlen. f_equal. apply IH. lia.
Qed.

(** X10. The label [add_item_to_list] shows for a text item is never
    longer than 100 characters: it is the content when that has at most 100
    characters, and otherwise exactly 100 characters, the first 97 of the
    content followed by three dots. *)
Theorem text_label_bound item :
  (String.length (text_label item) <= 100)%nat ∧
  ((String.length (content item) <= 100)%nat -> text_label item = content item) ∧
  ((100 < String.length (content item))%nat ->
   text_label item = str_slice_to (content item) 97 +:+ "..." ∧
   String.length (text_label item) = 100%nat).
Proof.
  unfold text_label.
  destruct (Nat.ltb_spec 100 (String.length (content item))) as [Hlong|Hshort].
  - rewrite length_append, length_str_slice_to.
    change (String.length "...") with 3%nat.
    split_and!; [lia | intros ?; exfalso; lia |]. intros _. split; [done | lia].
  - split_and!; [done | done | lia].
Qed.

(** X11. The notification [on_item_clicked] shows for a row has the
    content as its body when that has at most 50 characters, and otherwise
    its first 50 characters followed by three dots; the body is never
    longer than 53 characters, and the notification is the last thing the
    handler does to the outside. *)
Theorem notification_body_bound self item :
  last (events (on_item_clicked self (Some item))) =
    Some (Notification "Copied to clipboard" (notification_body (content item))) ∧
  (String.length (notification_body (content item)) <= 53)%nat ∧
  ((String.length (content item) <= 50)%nat ->
   notification_body (content item) = content item).
Proof.
  split_and!.
  - unfold on_item_clicked, notification_body.
    repeat case_match; simpl; apply last_snoc.
  - unfold notification_body. rewrite length_append, length_str_slice_to.
    destruct (50 <? _)%nat;
      [change (String.length "...") with 3%nat
      | change (String.length "") with 0%nat]; lia.
  - intros Hshort. unfold notification_body.
    destruct (Nat.ltb_spec 50 (String.length (content item))); [lia |].
    rewrite str_slice_to_all by done. apply append_empty_r.
Qed.

(** ** What a search can list *)

Lemma filter_sublist {A} (f : A -> bool) (l : list A) :
  List.filter f l `sublist_of` l.
Proof.
  induction l as [|x l IH]; simpl; [done |].
  destruct (f x); by constructor.
Qed.

Lemma filter_Forall {A} (f : A -> bool) (l : list A) :
  Forall (λ x, f x = true) (List.filter f l).
Proof.
  induction l as [|x l IH]; simpl; [done |].
  destruct (f x) eqn:Hx; [by constructor | done].
Qed.

(** X12. Whatever the kinds of the entries, the rows a search leaves are a
    subsequence of the history, and each is an entry of kind text or image
    whose content contains the query when case is ignored: an entry of
    another kind is never listed, not even by the empty query. *)
Theorem search_lists_only_texts_and_images self query :
  listbox (on_search_changed self query) `sublist_of` history self ∧
  Forall (λ item,
            (type item = "text" ∨ type item = "image") ∧
            ci_substring query (content item))
    (listbox (on_search_changed self query)).
Proof.
  unfold on_search_changed. simpl. split; [apply filter_sublist |].
  eapply Forall_impl; [apply filter_Forall |].
  intros item Hmatch. simpl in Hmatch. unfold search_match in Hmatch.
  unfold ci_substring.
  destruct (String.eqb_spec (type item) "text") as [Hty|_]; simpl in Hmatch.
  - destruct (str_in _ _) eqn:Hin; simpl in Hmatch.
    + split; [by left | by apply str_in_spec].
    + destruct (String.eqb_spec (type item) "image") as [Hty'|_]; [| done].
      by rewrite Hty in Hty'.
  - destruct (String.eqb_spec (type item) "image") as [Hty|_]; [| done].
    simpl in Hmatch. destruct (str_in _ _) eqn:Hin; [| done].
    split; [by right | by apply str_in_spec].
Qed.

(** ** Records *)

(** X13. [from_dict] builds an item exactly from an object that has the
    keys [content], [timestamp] and [type] and a timestamp [fromisoformat]
    reads; the payload is the value of [image_data] when that key is there,
    and other keys are ignored.  Otherwise it raises: [TypeError] on a value
    that is not an object, [KeyError] for the first of the three keys that
    is missing, [ValueError] for a timestamp that cannot be read. *)
Theorem from_dict_accepts (data : json) :
  (∀ item,
     from_dict data = inr item ↔
     ∃ m c ts t ty,
       data = JDict m ∧
       m !! "content" = Some c ∧ m !! "timestamp" = Some ts ∧
       fromisoformat ts = Some t ∧ m !! "type" = Some ty ∧
       item = {| content := c; timestamp := t; type := ty;
                 image_data := m !! "image_data" |}) ∧
  ((∀ m, data ≠ JDict m) -> from_dict data = inl TypeError) ∧
  (∀ m, data = JDict m ->
     (m !! "content" = None -> from_dict data = inl (KeyError "content")) ∧
     (is_Some (m !! "content") -> m !! "timestamp" = None ->
      from_dict data = inl (KeyError "timestamp")) ∧
     (∀ ts, is_Some (m !! "content") -> m !! "timestamp" = Some ts ->
        fromisoformat ts = None -> from_dict data = inl ValueError) ∧
     (∀ ts, is_Some (m !! "content") -> m !! "timestamp" = Some ts ->
        is_Some (fromisoformat ts) -> m !! "type" = None ->
        from_dict data = inl (KeyError "type"))).
Proof.
  split_and!.
  - intros item. split.
    + destruct data as [|m| |]; try done.
      unfold from_dict, getitem, contains_key.
      destruct (m !! "content") as [c|] eqn:Hc; [| done].
      destruct (m !! "timestamp") as [ts|] eqn:Hts; [| done].
      destruct (fromisoformat ts) as [t|] eqn:Ht; [| done].
      destruct (m !! "type") as [ty|] eqn:Hty; [| done].
      destruct (m !! "image_data") as [d|] eqn:Hd.
      * rewrite bool_decide_eq_true_2 by eauto. intros [= <-].
        exists m, c, ts, t, ty. by rewrite Hd.
      * rewrite bool_decide_eq_false_2 by (by intros [? ?]). intros [= <-].
        exists m, c, ts, t, ty. by rewrite Hd.
    + intros (m & c & ts & t & ty & -> & Hc & Hts & Ht & Hty & ->).
      unfold from_dict, getitem, contains_key. rewrite Hc, Hts, Ht, Hty.
      destruct (m !! "image_data") as [d|] eqn:Hd.
      * by rewrite bool_decide_eq_true_2 by eauto.
      * by rewrite bool_decide_eq_false_2 by (by intros [? ?]).
  - intros Hdata. destruct data as [|m| |]; try done. by destruct (Hdata m).
  - intros m ->. unfold from_dict, getitem. split_and!.
    + by intros ->.
    + by intros [c ->] ->.
    + by intros ts [c ->] -> ->.
    + by intros ts [c ->] -> [t ->] ->.
Qed.

(** ** Start-up *)

(** X14. After start-up on a list all of whose elements [from_dict]
    accepts and that is not empty, [current_content] is the content of the
    first entry (for an image, its label) and the list box shows the whole
    history; so ticks at which the clipboard holds that text and no image
    change nothing. *)
Theorem startup_sets_last_seen data item items c now :
  Forall2 (λ d item, from_dict d = inr item) data (item :: items) ->
  wait_for_text c = Some (content item) -> wait_for_image c = None ->
  current_content (init (Parsed (JList data))) = content item ∧
  listbox (init (Parsed (JList data))) = item :: items ∧
  check_clipboard (init (Parsed (JList data))) c now = init (Parsed (JList data)).
Proof.
  intros Hitems%from_dicts_inr Hc Hp.
  assert (current_content (init (Parsed (JList data))) = content item) as Hcur.
  { unfold init, read_history. simpl. by rewrite Hitems. }
  split_and!; [done | by apply init_list |].
  rewrite check_clipboard_same_text by (by rewrite Hcur). by rewrite Hp.
Qed.

(** ** Selecting an image or another kind *)

(** X15. Clicking the row of an image entry writes the decoded image to
    the system clipboard when the payload can be loaded; when there is no
    payload or it cannot be loaded, it prints the error and writes nothing.
    Clicking a row of a kind that is neither text nor image writes nothing
    either.  In all these cases the notification is still shown and the
    window hidden. *)
Theorem image_selection self item :
  let self' := on_item_clicked self (Some item) in
  let shown := Notification "Copied to clipboard" (notification_body (content item)) in
  is_visible self' = false ∧
  (type item = "image" ->
   (∀ d p, image_data item = Some d -> load_pixbuf d = Some p ->
      events self' = (events self ++ [ClipboardSetImage p; shown])%list) ∧
   (image_data item = None ∨
    (∃ d, image_data item = Some d ∧ load_pixbuf d = None) ->
    events self' = (events self ++ [PrintErrorSettingImage; shown])%list)) ∧
  (type item ≠ "text" -> type item ≠ "image" ->
   events self' = (events self ++ [shown])%list).
Proof.
  intros self' shown. unfold self', shown, on_item_clicked, notification_body.
  split_and!.
  - by repeat case_match.
  - intros Hty. rewrite Hty. simpl. split.
    + intros d p -> Hp. simpl. rewrite Hp. simpl. by rewrite <- app_assoc.
    + intros [-> | (d & -> & Hp)]; simpl; rewrite ?Hp; simpl;
        by rewrite <- app_assoc.
  - intros Htext Himage.
    apply String.eqb_neq in Htext as ->. by apply String.eqb_neq in Himage as ->.
Qed.

(** ** Showing and hiding *)

Lemma toggle_window_twice self : toggle_window (toggle_window self) = self.
Proof. destruct self as [? ? ? [] ? ? ?]; reflexivity. Qed.

(** X16. [toggle_window] changes nothing but [is_visible], which it
    flips: after [n] toggles the window is as it was when [n] is even, and
    its visibility is the opposite when [n] is odd. *)
Theorem toggles_flip_visibility self n :
  is_visible (Nat.iter n toggle_window self) = xorb (Nat.odd n) (is_visible self) ∧
  history (Nat.iter n toggle_window self) = history self ∧
  current_content (Nat.iter n toggle_window self) = current_content self ∧
  history_file (Nat.iter n toggle_window self) = history_file self ∧
  (Nat.even n = true -> Nat.iter n toggle_window self = self).
Proof.
  assert (∀ s, is_visible (toggle_window s) = negb (is_visible s) ∧
               history (toggle_window s) = history s ∧
               current_content (toggle_window s) = current_content s ∧
               history_file (toggle_window s) = history_file s) as Hone.
  { intros s. unfold toggle_window. by destruct (is_visible s). }
  split_and!.
  - induction n as [|n IH]; [done |].
    rewrite Nat.odd_succ, <- Nat.negb_odd. simpl.
    rewrite (proj1 (Hone _)), IH. by destruct (Nat.odd n), (is_visible self).
  - induction n as [|n IH]; [done |]. simpl.
    by rewrite (proj1 (proj2 (Hone _))).
  - induction n as [|n IH]; [done |]. simpl.
    by rewrite (proj1 (proj2 (proj2 (Hone _)))).
  - induction n as [|n IH]; [done |]. simpl.
    by rewrite (proj2 (proj2 (proj2 (Hone _)))).
  - induction n as [n IH] using lt_wf_ind. destruct n as [|[|n]]; [done | done |].
    rewrite !Nat.even_succ_succ. intros Heven. simpl.
    rewrite IH by (lia || done). apply toggle_window_twice.
Qed.

End Further.

(** * Properties of the hot key manager *)

Section HotKeyFacts.
Import HotKey.

Implicit Types (m : HotKeyManager) (e : xevent) (data : list xevent).

Lemma handle_running m e : running (handle m e).1 = running m.
Proof.
  destruct e as [k|k|]; simpl; [| | done].
  - destruct (is_super k); [done |]. by destruct (_ && _).
  - by destruct (is_super k).
Qed.

Lemma handle_all_running m data : running (handle_all m data).1 = running m.
Proof.
  revert m. induction data as [|e data IH]; intros m; simpl; [done |].
  destruct (handle m e) as [m1 fired] eqn:He.
  destruct (handle_all m1 data) as [m2 n] eqn:Hrest. simpl.
  change m2 with (m2, n).1. rewrite <- Hrest, IH.
  change m1 with (m1, fired).1. by rewrite <- He, handle_running.
Qed.

Lemma handle_all_app m data1 data2 :
  handle_all m (data1 ++ data2) =
  ((handle_all (handle_all m data1).1 data2).1,
   ((handle_all m data1).2 + (handle_all (handle_all m data1).1 data2).2)%nat).
Proof.
  revert m. induction data1 as [|e data1 IH]; intros m; simpl.
  - by destruct (handle_all m data2).
  - destruct (handle m e) as [m1 fired]. rewrite IH.
    destruct (handle_all m1 data1) as [m2 n]. simpl.
    destruct (handle_all m2 data2) as [m3 k]. simpl.
    f_equal. lia.
Qed.

Lemma replies_stopped m rs : running m = false -> replies m rs = (m, 0%nat).
Proof.
  intros Hm. induction rs as [|data rs IH]; simpl; [done |].
  unfold _process_event. rewrite Hm. simpl. by rewrite IH.
Qed.

(** X17. However the recorded stream is cut into replies, the replies
    handled one after the other leave the manager and the number of
    callbacks that handling all their events at once gives.  A stopped
    manager ignores every reply. *)
Theorem replies_are_one_stream m rs :
  replies m rs = _process_event m (concat rs) ∧
  replies (stop m) rs = (stop m, 0%nat).
Proof.
  split.
  - destruct (running m) eqn:Hm.
    + unfold _process_event. rewrite Hm. simpl.
      revert m Hm. induction rs as [|data rs IH]; intros m Hm; simpl; [done |].
      unfold _process_event. rewrite Hm. simpl.
      rewrite handle_all_app.
      destruct (handle_all m data) as [m1 n] eqn:Hdata. simpl.
      rewrite IH; [by destruct (handle_all m1 (concat rs)) |].
      change m1 with (m1, n).1. by rewrite <- Hdata, handle_all_running.
    + rewrite replies_stopped by done. unfold _process_event. by rewrite Hm.
  - by apply replies_stopped.
Qed.

(** X18. With no Super key down at the start and no press of a Super key
    among the events, no callback is scheduled and the manager is as it was,
    whatever else is pressed or released. *)
Theorem no_super_no_callback m data :
  super_pressed m = false ->
  Forall (λ e, is_super_press e = false) data ->
  _process_event m data = (m, 0%nat).
Proof.
  intros Hm Hdata. unfold _process_event. destruct (running m) eqn:Hrun; [| done].
  simpl. induction Hdata as [|e data He _ IH]; simpl; [done |].
  assert (handle m e = (m, false)) as ->; [| by rewrite IH].
  destruct e as [k|k|]; simpl in *; [| | done].
  - by rewrite He, Hm.
  - destruct (is_super k); [| done]. destruct m; simpl in *; congruence.
Qed.

(** X19. After a press of a Super key, and until a Super key is pressed or
    released again, every press of v schedules the callback once: a
    listening manager counts as many callbacks as there are presses of v,
    and ends with the Super key noted as down. *)
Theorem held_super_fires_each_v m k data :
  running m = true -> is_super k = true ->
  Forall (λ e, is_super_event e = false) data ->
  _process_event m (KeyPress k :: data) =
    ({| running := true; super_pressed := true |},
     length (List.filter is_v_press data)).
Proof.
  intros Hrun Hk Hdata. unfold _process_event. rewrite Hrun. simpl.
  rewrite Hk, Hrun.
  assert (handle_all {| running := true; super_pressed := true |} data =
          ({| running := true; super_pressed := true |},
           length (List.filter is_v_press data))) as ->; [| done].
  induction Hdata as [|e data He _ IH]; simpl; [done |].
  destruct e as [k'|k'|]; simpl in *.
  - rewrite He. simpl. destruct (k' =? XK_v); rewrite IH; done.
  - rewrite He. by rewrite IH.
  - by rewrite IH.
Qed.

End HotKeyFacts.

(** * The further properties on the sample data *)

Section FurtherSamples.
Import Py Example.

(** The list [l] is replaced by its value. *)
Ltac value_of l :=
  let v := eval vm_compute in l in change l with v in *.

(** Texts and an image stored from an empty history stay distinct. *)
Lemma entries_stay_distinct_witness :
  distinct (history fresh) ∧
  Forall (λ self', distinct (history self'))
    (states fresh
       [Text "A" morning; Image shot noon; Text "A" evening; Image shot evening]).
Proof.
  assert (distinct (history fresh)) as Hfresh by constructor.
  split; [exact Hfresh |].
  exact (entries_stay_distinct fresh _ Hfresh).
Defined.

(** Starting again after a text and an image were stored. *)
Lemma restart_restores_history_witness :
  (∀ item,
     item ∈ history (run (init NoFile)
                       [Poll (holding "hello") morning; Poll (showing shot) noon]) ->
     fromisoformat (isoformat (timestamp item)) = Some (timestamp item)) ∧
  saved_form <$>
    history (init (history_file
      (run (init NoFile)
         [Poll (holding "hello") morning; Poll (showing shot) noon]))) =
  saved_form <$>
    history (run (init NoFile)
               [Poll (holding "hello") morning; Poll (showing shot) noon]).
Proof.
  assert (∀ item,
     item ∈ history (run (init NoFile)
                       [Poll (holding "hello") morning; Poll (showing shot) noon]) ->
     fromisoformat (isoformat (timestamp item)) = Some (timestamp item)) as Hts.
  { value_of (history (run (init NoFile)
       [Poll (holding "hello") morning; Poll (showing shot) noon])).
    intros item Hin. apply py_fromisoformat_isoformat.
    revert item Hin. apply Forall_forall. repeat constructor. }
  split; [exact Hts |].
  exact (restart_restores_history NoFile _ Hts).
Defined.

(** Clearing while the clipboard still holds the text last seen. *)
Lemma clear_keeps_last_seen_witness :
  Forall (unchanged_text_poll text_then_image)
    [Poll (holding "hello") noon; Poll (holding "hello") evening] ∧
  history (run (on_clear_all text_then_image YES)
             [Poll (holding "hello") noon; Poll (holding "hello") evening]) = [].
Proof.
  assert (Forall (unchanged_text_poll text_then_image)
            [Poll (holding "hello") noon; Poll (holding "hello") evening])
    as Hcalls by (repeat constructor).
  split; [exact Hcalls |].
  exact (proj2 (proj2 (clear_keeps_last_seen text_then_image _ Hcalls))).
Defined.

(** The first text stored by a fresh window. *)
Lemma newest_entry_is_first_witness :
  1 <= max_history fresh ∧
  history (process_clipboard_text fresh "hello" noon) !! 0%nat =
    Some {| content := "hello"; timestamp := noon; type := "text";
            image_data := None |}.
Proof.
  assert (1 <= max_history fresh) as Hcap by (by vm_compute).
  split; [exact Hcap |].
  exact (proj1 (newest_entry_is_first fresh noon Hcap) "hello").
Defined.

(** A fourth text stored by a window of capacity 3 that holds three. *)
Lemma full_history_drops_last_witness :
  1 <= max_history three ∧
  Z.of_nat (length (history three)) = max_history three ∧
  (∀ item, item ∈ history three -> ¬ text_match "D" item) ∧
  history (process_clipboard_text three "D" evening) =
    {| content := "D"; timestamp := evening; type := "text"; image_data := None |}
      :: take (length (history three) - 1) (history three).
Proof.
  assert (1 <= max_history three) as Hcap by (by vm_compute).
  assert (Z.of_nat (length (history three)) = max_history three) as Hfull
    by (by vm_compute).
  assert (∀ item, item ∈ history three -> ¬ text_match "D" item) as Hnew.
  { apply Forall_forall. value_of (history three).
    repeat constructor; by intros [_ ?]. }
  split_and!; [exact Hcap | exact Hfull | exact Hnew |].
  exact (proj1 (proj1 (full_history_drops_last three evening Hcap Hfull) "D" Hnew)).
Defined.

(** The text c clicked in the window of six texts, and the tick after. *)
Lemma selected_text_moves_to_front_witness :
  entry_c ∈ history six ∧
  content entry_c ≠ current_content six ∧
  history (on_item_clicked six (Some entry_c)) = history six ∧
  ∃ i old,
    first_match (text_match (content entry_c)) (history six) i old ∧
    history (check_clipboard (on_item_clicked six (Some entry_c))
               (holding "c") evening) =
      {| content := content entry_c; timestamp := evening; type := "text";
         image_data := None |} :: delete i (history six).
Proof.
  assert (entry_c ∈ history six) as Hin.
  { value_of (history six). do 3 right. left. }
  assert (content entry_c ≠ current_content six) as Hne.
  { assert (current_content six = "f") as -> by (by vm_compute). discriminate. }
  destruct (selected_text_moves_to_front six entry_c (holding "c") evening
              Hin eq_refl eq_refl Hne eq_refl eq_refl) as (_ & Hh & Hmove).
  split_and!; [exact Hin | exact Hne | exact Hh | exact Hmove].
Defined.

(** Start-up on a file of one record, and a tick on its text. *)
Lemma startup_sets_last_seen_witness :
  Forall2 (λ d item, from_dict d = inr item) [record "first"] [entry_first] ∧
  current_content (init (Parsed (JList [record "first"]))) = content entry_first ∧
  check_clipboard (init (Parsed (JList [record "first"]))) (holding "first") noon =
    init (Parsed (JList [record "first"])).
Proof.
  assert (Forall2 (λ d item, from_dict d = inr item) [record "first"]
            [entry_first]) as Hitems.
  { apply from_dicts_inr. reflexivity. }
  destruct (startup_sets_last_seen [record "first"] entry_first []
              (holding "first") noon Hitems eq_refl eq_refl)
    as (Hcur & _ & Hsame).
  split_and!; [exact Hitems | exact Hcur | exact Hsame].
Defined.

(** Keys typed while no Super key is down. *)
Lemma no_super_no_callback_witness :
  HotKey.super_pressed listening = false ∧
  Forall (λ e, HotKey.is_super_press e = false) typing ∧
  HotKey._process_event listening typing = (listening, 0%nat).
Proof.
  assert (Forall (λ e, HotKey.is_super_press e = false) typing) as Htyping
    by (repeat constructor).
  split_and!; [reflexivity | exact Htyping |].
  exact (no_super_no_callback listening typing eq_refl Htyping).
Defined.

(** The key v pressed twice while the left Super key is down. *)
Lemma held_super_fires_each_v_witness :
  HotKey.running listening = true ∧
  HotKey.is_super HotKey.XK_Super_L = true ∧
  Forall (λ e, HotKey.is_super_event e = false) repeated_v ∧
  HotKey._process_event listening (HotKey.KeyPress HotKey.XK_Super_L :: repeated_v) =
    ({| HotKey.running := true; HotKey.super_pressed := true |},
     length (List.filter HotKey.is_v_press repeated_v)).
Proof.
  assert (Forall (λ e, HotKey.is_super_event e = false) repeated_v) as Hdata
    by (repeat constructor).
  split_and!; [reflexivity | reflexivity | exact Hdata |].
  exact (held_super_fires_each_v listening HotKey.XK_Super_L repeated_v
           eq_refl eq_refl Hdata).
Defined.

End FurtherSamples.
